(** * The session registry and role-based router of the translation server

    A shallow embedding of [server.py]: the [TranslationServer] registry of
    connections, the translation front ends and [process_message] with its
    two broadcast loops.  The model inference behind the translation
    pipeline, the wall clock and the outcome of each network send are the
    environment; they are the variables of the section below. *)

From stdpp Require Import gmap strings list fin_maps.

(** ** Python values

    Every field of the wire protocol is a string; [None] is what
    [register_client] stores as the session id and what JSON [null]
    decodes to.  Numbers, booleans, arrays and objects do not occur in
    the envelopes of the protocol and are left out. *)

Inductive pyval : Type :=
| PyNone
| PyStr (s : string).

#[global] Instance pyval_eq_dec : EqDecision pyval.
Proof. solve_decision. Defined.

(** [str(v)], which is also what an f-string interpolates. *)
Definition py_str (v : pyval) : string :=
  match v with
  | PyNone => "None"
  | PyStr s => s
  end.

(** [repr(s)] of a string with no quote, backslash or control character
    (the language codes are such strings). *)
Definition py_repr_str (s : string) : string := "'" +:+ s +:+ "'".

Fixpoint py_join (sep : string) (l : list string) : string :=
  match l with
  | [] => ""
  | [s] => s
  | s :: rest => s +:+ sep +:+ py_join sep rest
  end.

(** [str(l)] of a list of strings. *)
Definition py_repr_list (l : list string) : string :=
  "[" +:+ py_join ", " (py_repr_str <$> l) +:+ "]".

(** [v in l] for a list of strings: [==] against each element. *)
Definition py_in (v : pyval) (l : list string) : bool :=
  match v with
  | PyNone => false
  | PyStr s => bool_decide (s ∈ l)
  end.

(** [needle in s] on strings. *)
Definition contains (s needle : string) : Prop :=
  ∃ before after, s = before +:+ needle +:+ after.

(** A decoded JSON object, and an outbound dictionary before [json.dumps]. *)
Abbreviation pydict := (gmap string pyval).

(** [d.get(key, dflt)] *)
Definition get (d : pydict) (key : string) (dflt : pyval) : pyval :=
  default dflt (d !! key).

(** ** The translation table *)

Record model_pair : Type := ModelPair { to_en : string; from_en : string }.

Definition TRANSLATION_MODELS : list (string * model_pair) :=
  [ ("es", ModelPair "Helsinki-NLP/opus-mt-es-en" "Helsinki-NLP/opus-mt-en-es");
    ("fr", ModelPair "Helsinki-NLP/opus-mt-fr-en" "Helsinki-NLP/opus-mt-en-fr");
    ("de", ModelPair "Helsinki-NLP/opus-mt-de-en" "Helsinki-NLP/opus-mt-en-de");
    ("it", ModelPair "Helsinki-NLP/opus-mt-it-en" "Helsinki-NLP/opus-mt-en-it");
    ("pt", ModelPair "Helsinki-NLP/opus-mt-pt-en" "Helsinki-NLP/opus-mt-en-pt") ].

Fixpoint assoc (key : string) (table : list (string * model_pair)) : option model_pair :=
  match table with
  | [] => None
  | (k, v) :: rest => if decide (k = key) then Some v else assoc key rest
  end.

(** [TRANSLATION_MODELS[lang]]; [None] when [lang not in TRANSLATION_MODELS]. *)
Definition models_of (lang : pyval) : option model_pair :=
  match lang with
  | PyNone => None
  | PyStr s => assoc s TRANSLATION_MODELS
  end.

(** [OfflineTranslator.supported_languages = list(TRANSLATION_MODELS.keys())] *)
Definition supported_languages : list string := TRANSLATION_MODELS.*1.

(** ** Connections, registry entries and observable events *)

Abbreviation conn := nat.

Record client_info : Type := ClientInfo {
  language : pyval;
  translation_enabled : bool;
  role : pyval;
  session_id : pyval
}.

#[global] Instance client_info_eq_dec : EqDecision client_info.
Proof. solve_decision. Defined.

Definition set_language (v : pyval) (info : client_info) : client_info :=
  ClientInfo v (translation_enabled info) (role info) (session_id info).
Definition set_role (v : pyval) (info : client_info) : client_info :=
  ClientInfo (language info) (translation_enabled info) v (session_id info).
Definition set_session_id (v : pyval) (info : client_info) : client_info :=
  ClientInfo (language info) (translation_enabled info) (role info) v.

(** What a run of the server does to the outside world. *)
Inductive event : Type :=
| Translate (model_key : string) (text : pyval)
    (* the pipeline of [model_key] was called on [text] *)
| Send (client : conn) (message : pydict) (delivered : bool)
    (* [client.send(json.dumps(message))]; [delivered = false] when the
       send raised and the error was logged *)
| ResponseUnbound (client : conn).
    (* [json.dumps(response)] with [response] never assigned: the
       [UnboundLocalError] is caught and logged, nothing is sent *)

#[global] Instance event_eq_dec : EqDecision event.
Proof. solve_decision. Defined.

(** The result of calling a loaded translation pipeline. *)
Inductive outcome : Type :=
| Returns (translation_text : string)
| Raises (str_e : string).

(** The stand-in pipeline the server falls back to when the ML libraries
    or a model cannot be loaded ([MockPipeline], [MockTranslator]). *)
Definition mock_pipeline_call (model_key : string) (text : pyval) : outcome :=
  Returns ("[MOCK TRANSLATION] " +:+ py_str text).

(** ** The server *)

Section TranslationServer.

(** [load_model(model_key)(text, max_length=512)[0]["translation_text"]]:
    the text the pipeline cached under [model_key] returns for [text], or
    the exception it raises.  Inference is taken to be a function of the
    model and the text. *)
Variable pipeline_call : string → pyval → outcome.

(** Whether [client.send] raises (the peer is closed or unreachable). *)
Variable send_raises : conn → bool.

(** *** OfflineTranslator *)

Definition translate_to_english (text source_language : pyval) : pyval * list event :=
  match models_of source_language with
  | None =>
      (PyStr ("Translation error: Language '" +:+ py_str source_language +:+ "' not supported"), [])
  | Some models =>
      let model_key := to_en models in
      (match pipeline_call model_key text with
       | Returns translation => PyStr translation
       | Raises e => PyStr ("Translation error: " +:+ e)
       end, [Translate model_key text])
  end.

Definition translate_from_english (text target_language : pyval) : pyval * list event :=
  match models_of target_language with
  | None =>
      (PyStr ("Translation error: Language '" +:+ py_str target_language +:+ "' not supported"), [])
  | Some models =>
      let model_key := from_en models in
      (match pipeline_call model_key text with
       | Returns translation => PyStr translation
       | Raises e => PyStr ("Translation error: " +:+ e)
       end, [Translate model_key text])
  end.

(** *** TranslationServer: the registry *)

Definition register_client (clients : gmap conn client_info) (websocket : conn)
  : gmap conn client_info :=
  <[websocket := {| language := PyStr "es";
                    translation_enabled := true;
                    role := PyStr "traveler";
                    session_id := PyNone |}]> clients.

Definition unregister_client (clients : gmap conn client_info) (websocket : conn)
  : gmap conn client_info :=
  match clients !! websocket with
  | Some _ => delete websocket clients
  | None => clients
  end.

(** *** TranslationServer: translation front ends *)

Definition not_supported_offline (traveler_language : pyval) : string :=
  "Language '" +:+ py_str traveler_language +:+ "' not supported offline. Supported: "
    +:+ py_repr_list supported_languages.

Definition translate_traveler_to_assistant (text traveler_language : pyval)
  : pyval * list event :=
  if negb (py_in traveler_language supported_languages) then
    (PyStr (not_supported_offline traveler_language), [])
  else if decide (traveler_language = PyStr "en") then
    (text, [])
  else
    translate_to_english text traveler_language.

Definition translate_assistant_to_traveler (text traveler_language : pyval)
  : pyval * list event :=
  if negb (py_in traveler_language supported_languages) then
    (PyStr (not_supported_offline traveler_language), [])
  else if decide (traveler_language = PyStr "en") then
    (text, [])
  else
    translate_from_english text traveler_language.

(** *** TranslationServer: fan-out

    The loop visits the entries of the registry and sends to those that
    pass the test; a send that raises is logged and the loop goes on.
    Python visits the entries in insertion order; here they come in the
    enumeration order of the map, and no statement below depends on the
    order of the sends within one fan-out. *)

Definition send (client : conn) (message : pydict) : event :=
  Send client message (negb (send_raises client)).

Definition in_session (wanted_role session : pyval) (entry : conn * client_info) : Prop :=
  role entry.2 = wanted_role ∧ session_id entry.2 = session.

#[global] Instance in_session_dec wanted_role session entry :
  Decision (in_session wanted_role session entry).
Proof. unfold in_session. apply _. Defined.

Definition broadcast_to_assistants (clients : gmap conn client_info)
    (session : pyval) (message : pydict) : list event :=
  (λ entry, send entry.1 message)
    <$> map_to_list (filter (in_session (PyStr "assistant") session) clients).

Definition broadcast_to_travelers (clients : gmap conn client_info)
    (session : pyval) (message : pydict) : list event :=
  (λ entry, send entry.1 message)
    <$> map_to_list (filter (in_session (PyStr "traveler") session) clients).

(** *** TranslationServer: process_message

    [t_message] and [t_response] are the two readings of
    [time.strftime("%H:%M:%S")] a transcription takes. *)

Definition traveler_message (original translated lang : pyval) (t : string) : pydict :=
  {[ "type" := PyStr "traveler_message";
     "original" := original;
     "translated" := translated;
     "traveler_language" := lang;
     "timestamp" := PyStr t ]}.

Definition transcription_sent (original translated : pyval) (t : string) : pydict :=
  {[ "type" := PyStr "transcription_sent";
     "original" := original;
     "translated_for_assistant" := translated;
     "timestamp" := PyStr t ]}.

Definition assistant_response (original translated lang : pyval) (t : string) : pydict :=
  {[ "type" := PyStr "assistant_response";
     "original" := original;
     "translated" := translated;
     "traveler_language" := lang;
     "timestamp" := PyStr t ]}.

Definition response_sent (original translated : pyval) (t : string) : pydict :=
  {[ "type" := PyStr "response_sent";
     "original" := original;
     "translated_for_traveler" := translated;
     "timestamp" := PyStr t ]}.

(** The closing [try: await websocket.send(json.dumps(response))]. *)
Definition send_response (websocket : conn) (response : option pydict) : list event :=
  match response with
  | Some r => [send websocket r]
  | None => [ResponseUnbound websocket]
  end.

Definition process_message (clients : gmap conn client_info) (websocket : conn)
    (data : pydict) (t_message t_response : string)
  : gmap conn client_info * list event :=
  let message_type := data !! "type" in
  if decide (message_type = Some (PyStr "set_role")) then
    let new_role := get data "role" (PyStr "traveler") in
    let new_session := get data "session_id" (PyStr "default") in
    (match clients !! websocket with
     | Some _ =>
         alter (λ info, set_language (get data "language" (PyStr "es"))
                          (set_session_id new_session (set_role new_role info)))
               websocket clients
     | None => clients
     end, [])
  else if decide (message_type = Some (PyStr "transcription")) then
    let original_text := get data "text" (PyStr "") in
    let client_info := clients !! websocket in
    let sender_role := from_option role (PyStr "traveler") client_info in
    let sender_language := from_option language (PyStr "es") client_info in
    let sender_session := from_option session_id (PyStr "default") client_info in
    let '(sent, response) :=
      if decide (sender_role = PyStr "traveler") then
        let '(translated_text, calls) :=
          translate_traveler_to_assistant original_text sender_language in
        (calls ++ broadcast_to_assistants clients sender_session
                    (traveler_message original_text translated_text sender_language t_message),
         Some (transcription_sent original_text translated_text t_response))
      else if decide (sender_role = PyStr "assistant") then
        let traveler_language := get data "traveler_language" (PyStr "es") in
        let '(translated_text, calls) :=
          translate_assistant_to_traveler original_text traveler_language in
        (calls ++ broadcast_to_travelers clients sender_session
                    (assistant_response original_text translated_text traveler_language t_message),
         Some (response_sent original_text translated_text t_response))
      else ([], None) in
    (clients, sent ++ send_response websocket response)
  else if decide (message_type = Some (PyStr "start_recording")) then
    (match clients !! websocket with
     | Some _ => alter (set_language (get data "language" (PyStr "es"))) websocket clients
     | None => clients
     end, [])
  else if decide (message_type = Some (PyStr "stop_recording")) then
    (clients, [])
  else
    (clients, []).

(** *** handle_client, one connection event at a time

    A connection is registered when it is accepted, each decoded message
    is processed as one unit of work, and the connection is unregistered
    when it closes. *)

Inductive input : Type :=
| Connect (websocket : conn)
| Receive (websocket : conn) (data : pydict) (t_message t_response : string)
| Disconnect (websocket : conn).

Definition input_conn (i : input) : conn :=
  match i with
  | Connect websocket | Receive websocket _ _ _ | Disconnect websocket => websocket
  end.

Definition step (clients : gmap conn client_info) (i : input)
  : gmap conn client_info * list event :=
  match i with
  | Connect websocket => (register_client clients websocket, [])
  | Receive websocket data t_message t_response =>
      process_message clients websocket data t_message t_response
  | Disconnect websocket => (unregister_client clients websocket, [])
  end.

Fixpoint run (clients : gmap conn client_info) (inputs : list input)
  : gmap conn client_info * list event :=
  match inputs with
  | [] => (clients, [])
  | i :: rest =>
      let '(clients1, events1) := step clients i in
      let '(clients2, events2) := run clients1 rest in
      (clients2, events1 ++ events2)
  end.

End TranslationServer.

(** ** One connection from accept to close *)

Section HandleClient.

Variable pipeline_call : string → pyval → outcome.
Variable send_raises : conn → bool.

(** A frame received on the connection: the JSON object it decodes to
    with the two clock readings its processing takes, or [None] for a
    frame that [json.loads] rejects or that is not an object; such a frame
    is logged and skipped. *)
Abbreviation frame := (option pydict * string * string)%type.

(** The [async for message in websocket] loop. *)
Fixpoint handle_messages (clients : gmap conn client_info) (websocket : conn)
    (frames : list frame) : gmap conn client_info * list event :=
  match frames with
  | [] => (clients, [])
  | (None, _, _) :: rest => handle_messages clients websocket rest
  | (Some data, t_message, t_response) :: rest =>
      let '(clients1, events1) :=
        process_message pipeline_call send_raises clients websocket data
          t_message t_response in
      let '(clients2, events2) := handle_messages clients1 websocket rest in
      (clients2, events1 ++ events2)
  end.

(** [handle_client] when no other connection is served in between: the
    connection is registered, its frames are processed in order until it
    closes, and it is unregistered in the [finally]. *)
Definition handle_client (clients : gmap conn client_info) (websocket : conn)
    (frames : list frame) : gmap conn client_info * list event :=
  let '(clients1, events) :=
    handle_messages (register_client clients websocket) websocket frames in
  (unregister_client clients1 websocket, events).

End HandleClient.

(** ** OfflineTranslator with its cache of loaded models

    [server.py], [OfflineTranslator]: [self.translators] maps a model key
    to the translator loaded for it.  What loading and inference do is the
    environment [ml_env]; it is an argument of every call, so that it may
    differ from one call to the next (model files appear or disappear
    while the server runs). *)

Module OfflineTranslator.

(** What [self.translators] holds under a key. *)
Inductive translator : Type :=
| Pipeline (model_key : string)
    (* the transformers pipeline built on the model and tokenizer of the key *)
| MockPipeline
    (* what [mock_pipeline] returns when the ML libraries are missing *)
| MockTranslator.
    (* the fallback of [load_model] when loading raised *)

#[global] Instance translator_eq_dec : EqDecision translator.
Proof. solve_decision. Defined.

Record ml_env : Type := MlEnv {
  ml_available : bool;
    (* [_import_ml_libraries] could import transformers and torch *)
  from_pretrained_ok : string → bool;
    (* tokenizer and model of the key load from the local cache
       ([local_files_only=True]) *)
  pipeline_builds : string → bool;
    (* [pipeline("translation", ...)] on them returns *)
  inference : string → pyval → outcome
    (* the built pipeline on a text: [result[0]["translation_text"]], or
       the exception raised *)
}.

(** [translator(text, max_length=512)[0]["translation_text"]] *)
Definition call (env : ml_env) (t : translator) (text : pyval) : outcome :=
  match t with
  | Pipeline model_key => inference env model_key text
  | MockPipeline | MockTranslator => mock_pipeline_call "" text
  end.

Definition load_model (env : ml_env) (translators : gmap string translator)
    (model_key : string) : translator * gmap string translator :=
  match translators !! model_key with
  | Some t => (t, translators)
  | None =>
      let t :=
        if ml_available env then
          if from_pretrained_ok env model_key && pipeline_builds env model_key
          then Pipeline model_key
          else MockTranslator
        else MockPipeline in
      (t, <[model_key := t]> translators)
  end.

Definition translate_to_english (env : ml_env) (translators : gmap string translator)
    (text source_language : pyval) : pyval * gmap string translator * list event :=
  match models_of source_language with
  | None =>
      (PyStr ("Translation error: Language '" +:+ py_str source_language +:+ "' not supported"),
       translators, [])
  | Some models =>
      let model_key := to_en models in
      let '(t, translators') := load_model env translators model_key in
      (match call env t text with
       | Returns translation => PyStr translation
       | Raises e => PyStr ("Translation error: " +:+ e)
       end, translators', [Translate model_key text])
  end.

Definition translate_from_english (env : ml_env) (translators : gmap string translator)
    (text target_language : pyval) : pyval * gmap string translator * list event :=
  match models_of target_language with
  | None =>
      (PyStr ("Translation error: Language '" +:+ py_str target_language +:+ "' not supported"),
       translators, [])
  | Some models =>
      let model_key := from_en models in
      let '(t, translators') := load_model env translators model_key in
      (match call env t text with
       | Returns translation => PyStr translation
       | Raises e => PyStr ("Translation error: " +:+ e)
       end, translators', [Translate model_key text])
  end.

(** The pipeline a key stands for, given the cache and the environment:
    what a call through [load_model] runs. *)
Definition pipeline_of (env : ml_env) (translators : gmap string translator)
    (model_key : string) (text : pyval) : outcome :=
  call env (load_model env translators model_key).1 text.

(** A sequence of translation requests served by one translator object. *)
Inductive request : Type :=
| ToEnglish (text source_language : pyval)
| FromEnglish (text target_language : pyval).

Fixpoint serve (env : ml_env) (translators : gmap string translator)
    (requests : list request) : list pyval * gmap string translator :=
  match requests with
  | [] => ([], translators)
  | r :: rest =>
      let '(answer, translators1, _) :=
        match r with
        | ToEnglish text lang => translate_to_english env translators text lang
        | FromEnglish text lang => translate_from_english env translators text lang
        end in
      let '(answers, translators2) := serve env translators1 rest in
      (answer :: answers, translators2)
  end.

End OfflineTranslator.

(** ** download_models.py *)

Module DownloadModels.

Definition TRANSLATION_MODELS : list string :=
  [ "Helsinki-NLP/opus-mt-es-en"; "Helsinki-NLP/opus-mt-en-es";
    "Helsinki-NLP/opus-mt-fr-en"; "Helsinki-NLP/opus-mt-en-fr";
    "Helsinki-NLP/opus-mt-de-en"; "Helsinki-NLP/opus-mt-en-de";
    "Helsinki-NLP/opus-mt-it-en"; "Helsinki-NLP/opus-mt-en-it";
    "Helsinki-NLP/opus-mt-pt-en"; "Helsinki-NLP/opus-mt-en-pt" ].

(** The line printed for a model: success, or the failure that ends the
    loop. *)
Inductive report : Type :=
| Succeeded (model_name : string)
| Failed (model_name : string).

(** The loop of [download_models] and of [verify_offline_models]: the
    models in order, [return False] at the first one whose two
    [from_pretrained] calls raise, [True] after the last. *)
Fixpoint each_model (loads : string → bool) (models : list string) : bool * list report :=
  match models with
  | [] => (true, [])
  | model_name :: rest =>
      if loads model_name then
        let '(result, reports) := each_model loads rest in
        (result, Succeeded model_name :: reports)
      else (false, [Failed model_name])
  end.

(** [download_models]; [None] when [os.makedirs] of the cache directory
    raises, which nothing catches.  [fetch_ok]: tokenizer and model of the
    name download into the cache. *)
Definition download_models (makedirs_ok : bool) (fetch_ok : string → bool)
  : option (bool * list report) :=
  if makedirs_ok then Some (each_model fetch_ok TRANSLATION_MODELS) else None.

(** [local_ok]: tokenizer and model of the name load with
    [local_files_only=True]. *)
Definition verify_offline_models (local_ok : string → bool) : bool * list report :=
  each_model local_ok TRANSLATION_MODELS.

(** The script's [__main__], once its imports have succeeded: its exit
    status and the reports of the loops it ran.  [cache_size] is what
    [get_cache_size()] returns, [None] when it raises; an exception
    nothing catches ends the script with status 1. *)
Definition main (argv : list string) (makedirs_ok : bool)
    (fetch_ok local_ok : string → bool) (cache_size : option string)
  : nat * list report :=
  let after_size := if cache_size is Some _ then 0 else 1 in
  if decide (argv !! 1 = Some "verify") then
    (after_size, (verify_offline_models local_ok).2)
  else if decide (argv !! 1 = Some "size") then
    (after_size, [])
  else
    match download_models makedirs_ok fetch_ok with
    | None => (1, [])
    | Some (false, downloads) => (1, downloads)
    | Some (true, downloads) =>
        let '(verified, checks) := verify_offline_models local_ok in
        if verified then (after_size, downloads ++ checks)
        else (1, downloads ++ checks)
    end.

End DownloadModels.

(** ** Vocabulary of the statements *)

(** The fan-out envelopes, as opposed to the acknowledgements. *)
Definition is_broadcast (message : pydict) : Prop :=
  message !! "type" = Some (PyStr "traveler_message")
  ∨ message !! "type" = Some (PyStr "assistant_response").

(** The role a transcription is fanned out to. *)
Definition target_role (sender_role : pyval) : option pyval :=
  if decide (sender_role = PyStr "traveler") then Some (PyStr "assistant")
  else if decide (sender_role = PyStr "assistant") then Some (PyStr "traveler")
  else None.

(** No translation pipeline was called. *)
Definition translator_idle (events : list event) : Prop :=
  ∀ model_key text, Translate model_key text ∉ events.

(** What [process_message] resolves about the sender of a transcription. *)
Definition sender_role (clients : gmap conn client_info) (websocket : conn) : pyval :=
  from_option role (PyStr "traveler") (clients !! websocket).
Definition sender_language (clients : gmap conn client_info) (websocket : conn) : pyval :=
  from_option language (PyStr "es") (clients !! websocket).
Definition sender_session (clients : gmap conn client_info) (websocket : conn) : pyval :=
  from_option session_id (PyStr "default") (clients !! websocket).

(** The entry [register_client] stores. *)
Definition fresh_entry : client_info :=
  {| language := PyStr "es"; translation_enabled := true;
     role := PyStr "traveler"; session_id := PyNone |}.

(** [c] is sent a fan-out envelope in [events]; [delivered] tells whether
    the send went through. *)
Definition broadcast_sent (events : list event) (c : conn) (delivered : bool) : Prop :=
  ∃ message, Send c message delivered ∈ events ∧ is_broadcast message.

(** How a translation front end renders what the pipeline did. *)
Definition rendered (o : outcome) : pyval :=
  match o with
  | Returns translation => PyStr translation
  | Raises e => PyStr ("Translation error: " +:+ e)
  end.

(** The connection an event sends to, if it is a send. *)
Definition recipient (e : event) : option conn :=
  match e with
  | Send client _ _ => Some client
  | _ => None
  end.

(** The registered connections as accepts and closes alone decide them. *)
Definition registered_after (registered : gset conn) (i : input) : gset conn :=
  match i with
  | Connect websocket => {[websocket]} ∪ registered
  | Receive _ _ _ _ => registered
  | Disconnect websocket => registered ∖ {[websocket]}
  end.

(** The answer to a request when the pipelines are a fixed function. *)
Definition answer (pipeline_call : string → pyval → outcome)
    (r : OfflineTranslator.request) : pyval :=
  match r with
  | OfflineTranslator.ToEnglish text lang =>
      (translate_to_english pipeline_call text lang).1
  | OfflineTranslator.FromEnglish text lang =>
      (translate_from_english pipeline_call text lang).1
  end.

(** Loading the model of a key cannot give the real pipeline. *)
Definition unloadable (env : OfflineTranslator.ml_env) (model_key : string) : Prop :=
  OfflineTranslator.ml_available env = false
  ∨ OfflineTranslator.from_pretrained_ok env model_key = false
  ∨ OfflineTranslator.pipeline_builds env model_key = false.

(** An event with the outcome the sends have under [send_raises]. *)
Definition with_outcomes (send_raises : conn → bool) (e : event) : event :=
  match e with
  | Send client message _ => Send client message (negb (send_raises client))
  | _ => e
  end.

(** ** Scenarios

    Concrete registries and messages on which the statements below are
    exercised. *)

Definition no_failures : conn → bool := λ _, false.

(** Connection 2 is closed, every other send goes through. *)
Definition second_is_closed : conn → bool := λ c, bool_decide (c = 2).

Definition traveler_in (session lang : string) : client_info :=
  {| language := PyStr lang; translation_enabled := true;
     role := PyStr "traveler"; session_id := PyStr session |}.

Definition assistant_in (session : string) : client_info :=
  {| language := PyStr "es"; translation_enabled := true;
     role := PyStr "assistant"; session_id := PyStr session |}.

(** Traveler 1 and assistant 2 in session "S". *)
Definition two_party : gmap conn client_info :=
  <[2 := assistant_in "S"]> (<[1 := traveler_in "S" "es"]> ∅).

(** Traveler 1 and assistants 2 and 3 in session "S". *)
Definition three_party : gmap conn client_info :=
  <[3 := assistant_in "S"]> two_party.

(** Connection 1 registered with a role that is neither of the two. *)
Definition with_observer : gmap conn client_info :=
  <[1 := {| language := PyStr "es"; translation_enabled := true;
            role := PyStr "observer"; session_id := PyStr "S" |}]> ∅.

Definition hola : pydict :=
  {[ "type" := PyStr "transcription"; "text" := PyStr "Hola" ]}.

Definition reply_in (lang : string) : pydict :=
  {[ "type" := PyStr "transcription"; "text" := PyStr "Hello";
     "traveler_language" := PyStr lang ]}.

Definition start_recording_in (lang : string) : pydict :=
  {[ "type" := PyStr "start_recording"; "language" := PyStr lang ]}.

Definition set_role_to (new_role session lang : string) : pydict :=
  {[ "type" := PyStr "set_role"; "role" := PyStr new_role;
     "session_id" := PyStr session; "language" := PyStr lang ]}.

(** A pipeline that returns the empty text for every text. *)
Definition empty_pipeline : string → pyval → outcome :=
  λ _ _, Returns "".

(** A pipeline that raises on every text. *)
Definition failing_pipeline : string → pyval → outcome :=
  λ _ _, Raises "out of memory".

(** A message that sets the role and nothing else. *)
Definition become_assistant : pydict :=
  {[ "type" := PyStr "set_role"; "role" := PyStr "assistant" ]}.

Definition stop_recording : pydict := {[ "type" := PyStr "stop_recording" ]}.

(** The ML libraries are there, no model is in the local cache. *)
Definition no_local_models : OfflineTranslator.ml_env :=
  {| OfflineTranslator.ml_available := true;
     OfflineTranslator.from_pretrained_ok := λ _, false;
     OfflineTranslator.pipeline_builds := λ _, true;
     OfflineTranslator.inference := λ _ _, Raises "not loaded" |}.

(** Every model loads, and a pipeline answers with its own key. *)
Definition all_local_models : OfflineTranslator.ml_env :=
  {| OfflineTranslator.ml_available := true;
     OfflineTranslator.from_pretrained_ok := λ _, true;
     OfflineTranslator.pipeline_builds := λ _, true;
     OfflineTranslator.inference := λ model_key _, Returns model_key |}.

(** Every download succeeds but the third. *)
Definition all_but_french : string → bool :=
  λ model_name, bool_decide (model_name ≠ "Helsinki-NLP/opus-mt-fr-en").

(** ** Properties *)

Lemma string_app_assoc (s1 s2 s3 : string) : (s1 +:+ s2) +:+ s3 = s1 +:+ (s2 +:+ s3).
Proof.
  induction s1 as [|a s1 IH]; [done|].
  change (String a ((s1 +:+ s2) +:+ s3) = String a (s1 +:+ (s2 +:+ s3))).
  by rewrite IH.
Qed.

Lemma supported_languages_repr :
  py_repr_list supported_languages = "['es', 'fr', 'de', 'it', 'pt']".
Proof. reflexivity. Qed.

Lemma english_is_not_supported : py_in (PyStr "en") supported_languages = false.
Proof. reflexivity. Qed.

Lemma not_supported_offline_nonempty lang : not_supported_offline lang ≠ "".
Proof. done. Qed.

Lemma not_supported_offline_says_so lang :
  contains (not_supported_offline lang) "not supported".
Proof.
  exists ("Language '" +:+ py_str lang +:+ "' "),
         (" offline. Supported: " +:+ py_repr_list supported_languages).
  unfold not_supported_offline. by rewrite !string_app_assoc.
Qed.

Lemma not_supported_offline_lists_languages lang :
  contains (not_supported_offline lang) "['es', 'fr', 'de', 'it', 'pt']".
Proof.
  exists ("Language '" +:+ py_str lang +:+ "' not supported offline. Supported: "), "".
  unfold not_supported_offline. by rewrite !string_app_assoc.
Qed.

Section Properties.

Variable pipeline_call : string → pyval → outcome.
Variable send_raises : conn → bool.

#[local] Abbreviation process_message := (process_message pipeline_call send_raises).
#[local] Abbreviation translate_traveler_to_assistant :=
  (translate_traveler_to_assistant pipeline_call).
#[local] Abbreviation translate_assistant_to_traveler :=
  (translate_assistant_to_traveler pipeline_call).
#[local] Abbreviation broadcast_to_assistants := (broadcast_to_assistants send_raises).
#[local] Abbreviation broadcast_to_travelers := (broadcast_to_travelers send_raises).
#[local] Abbreviation send := (send send_raises).
#[local] Abbreviation run := (run pipeline_call send_raises).
#[local] Abbreviation step := (step pipeline_call send_raises).

(** *** The shape of [process_message], branch by branch *)

Lemma process_transcription_traveler clients websocket data t1 t2 :
  data !! "type" = Some (PyStr "transcription") →
  sender_role clients websocket = PyStr "traveler" →
  process_message clients websocket data t1 t2 =
    let text := get data "text" (PyStr "") in
    let lang := sender_language clients websocket in
    let tr := translate_traveler_to_assistant text lang in
    (clients,
     tr.2 ++ broadcast_to_assistants clients (sender_session clients websocket)
               (traveler_message text tr.1 lang t1)
          ++ [send websocket (transcription_sent text tr.1 t2)]).
Proof.
  unfold sender_role, sender_language, sender_session, process_message.
  intros -> ->. simpl.
  repeat (case_decide; try done).
  destruct (translate_traveler_to_assistant _ _) as [translated calls].
  simpl. by rewrite <- (assoc_L (++)).
Qed.

Lemma process_transcription_assistant clients websocket data t1 t2 :
  data !! "type" = Some (PyStr "transcription") →
  sender_role clients websocket = PyStr "assistant" →
  process_message clients websocket data t1 t2 =
    let text := get data "text" (PyStr "") in
    let lang := get data "traveler_language" (PyStr "es") in
    let tr := translate_assistant_to_traveler text lang in
    (clients,
     tr.2 ++ broadcast_to_travelers clients (sender_session clients websocket)
               (assistant_response text tr.1 lang t1)
          ++ [send websocket (response_sent text tr.1 t2)]).
Proof.
  unfold sender_role, sender_language, sender_session, process_message.
  intros -> ->. simpl.
  repeat (case_decide; try done).
  destruct (translate_assistant_to_traveler _ _) as [translated calls].
  simpl. by rewrite <- (assoc_L (++)).
Qed.

Lemma process_transcription_other clients websocket data t1 t2 :
  data !! "type" = Some (PyStr "transcription") →
  sender_role clients websocket ≠ PyStr "traveler" →
  sender_role clients websocket ≠ PyStr "assistant" →
  process_message clients websocket data t1 t2 = (clients, [ResponseUnbound websocket]).
Proof.
  unfold sender_role, process_message. intros -> Ht Ha. simpl.
  repeat (case_decide; try done).
Qed.

Lemma process_start_recording clients websocket data t1 t2 :
  data !! "type" = Some (PyStr "start_recording") →
  process_message clients websocket data t1 t2 =
    (alter (set_language (get data "language" (PyStr "es"))) websocket clients, []).
Proof.
  unfold process_message. intros ->. simpl.
  repeat (case_decide; try done).
  destruct (clients !! websocket) eqn:E; [done|].
  f_equal. apply map_eq. intros c. rewrite lookup_alter.
  case_decide; simplify_eq; by rewrite ?E.
Qed.

(** *** What the translation front ends log *)

Lemma translate_to_english_calls text lang e :
  e ∈ (translate_to_english pipeline_call text lang).2 →
  ∃ model_key, e = Translate model_key text.
Proof.
  unfold translate_to_english. destruct (models_of lang); simpl.
  - intros ->%list_elem_of_singleton. eauto.
  - by intros ?%elem_of_nil.
Qed.

Lemma translate_from_english_calls text lang e :
  e ∈ (translate_from_english pipeline_call text lang).2 →
  ∃ model_key, e = Translate model_key text.
Proof.
  unfold translate_from_english. destruct (models_of lang); simpl.
  - intros ->%list_elem_of_singleton. eauto.
  - by intros ?%elem_of_nil.
Qed.

Lemma traveler_to_assistant_calls text lang e :
  e ∈ (translate_traveler_to_assistant text lang).2 →
  ∃ model_key, e = Translate model_key text.
Proof.
  unfold translate_traveler_to_assistant.
  destruct (negb _); [by intros ?%elem_of_nil|].
  case_decide; [by intros ?%elem_of_nil|].
  apply translate_to_english_calls.
Qed.

Lemma assistant_to_traveler_calls text lang e :
  e ∈ (translate_assistant_to_traveler text lang).2 →
  ∃ model_key, e = Translate model_key text.
Proof.
  unfold translate_assistant_to_traveler.
  destruct (negb _); [by intros ?%elem_of_nil|].
  case_decide; [by intros ?%elem_of_nil|].
  apply translate_from_english_calls.
Qed.

(** *** Who a fan-out sends to *)

Lemma elem_of_fan_out wanted session (clients : gmap conn client_info) message e :
  e ∈ (λ entry : conn * client_info, send entry.1 message)
        <$> map_to_list (filter (in_session wanted session) clients)
  ↔ ∃ c info, e = send c message ∧ clients !! c = Some info
              ∧ role info = wanted ∧ session_id info = session.
Proof.
  rewrite list_elem_of_fmap. split.
  - intros ([c info] & -> & Hin).
    apply elem_of_map_to_list, map_lookup_filter_Some in Hin as [Hc [Hr Hs]].
    by exists c, info.
  - intros (c & info & -> & Hc & Hr & Hs).
    exists (c, info). split; [done|].
    apply elem_of_map_to_list, map_lookup_filter_Some. by split.
Qed.

Lemma elem_of_broadcast_to_assistants clients session message e :
  e ∈ broadcast_to_assistants clients session message
  ↔ ∃ c info, e = send c message ∧ clients !! c = Some info
              ∧ role info = PyStr "assistant" ∧ session_id info = session.
Proof. apply elem_of_fan_out. Qed.

Lemma elem_of_broadcast_to_travelers clients session message e :
  e ∈ broadcast_to_travelers clients session message
  ↔ ∃ c info, e = send c message ∧ clients !! c = Some info
              ∧ role info = PyStr "traveler" ∧ session_id info = session.
Proof. apply elem_of_fan_out. Qed.

Lemma traveler_message_is_broadcast original translated lang t :
  is_broadcast (traveler_message original translated lang t).
Proof. by left. Qed.

Lemma assistant_response_is_broadcast original translated lang t :
  is_broadcast (assistant_response original translated lang t).
Proof. by right. Qed.

Lemma transcription_sent_not_broadcast original translated t :
  ¬ is_broadcast (transcription_sent original translated t).
Proof. by intros [?|?]. Qed.

Lemma response_sent_not_broadcast original translated t :
  ¬ is_broadcast (response_sent original translated t).
Proof. by intros [?|?]. Qed.

(** *** Registration and the recording messages *)

(** C5, as the code has it: right after [register_client] the entry of
    the connection has role "traveler", language "es", translation
    enabled, and [None] as its session id. *)
Theorem register_client_fresh_entry (clients : gmap conn client_info) websocket :
  register_client clients websocket !! websocket = Some fresh_entry
  ∧ role fresh_entry = PyStr "traveler"
  ∧ language fresh_entry = PyStr "es"
  ∧ translation_enabled fresh_entry = true
  ∧ session_id fresh_entry = PyNone.
Proof. unfold register_client. by rewrite lookup_insert_eq. Qed.

(** C9: a [start_recording] message from a registered sender replaces the
    language of the sender's entry and nothing else: role, session id and
    the translation flag of the sender are kept, every other entry is
    kept, and nothing is sent. *)
Theorem start_recording_only_language clients websocket info data t1 t2 :
  clients !! websocket = Some info →
  data !! "type" = Some (PyStr "start_recording") →
  ∃ clients',
    process_message clients websocket data t1 t2 = (clients', [])
    ∧ clients' !! websocket =
        Some {| language := get data "language" (PyStr "es");
                translation_enabled := translation_enabled info;
                role := role info;
                session_id := session_id info |}
    ∧ ∀ c, c ≠ websocket → clients' !! c = clients !! c.
Proof.
  intros Hinfo Htype. eexists. split; [by apply process_start_recording|].
  split.
  - by rewrite lookup_alter_eq, Hinfo.
  - intros c Hc. by rewrite lookup_alter_ne.
Qed.

(** C10: a transcription from a sender whose stored role is neither
    "traveler" nor "assistant" leaves the registry as it was and sends
    nothing, neither a broadcast nor an acknowledgement: the only thing
    that happens is the failed attempt to serialise the unassigned
    response. *)
Theorem transcription_with_other_role clients websocket info data t1 t2 :
  clients !! websocket = Some info →
  role info ≠ PyStr "traveler" →
  role info ≠ PyStr "assistant" →
  data !! "type" = Some (PyStr "transcription") →
  process_message clients websocket data t1 t2 = (clients, [ResponseUnbound websocket])
  ∧ ∀ c message delivered,
      Send c message delivered ∉ (process_message clients websocket data t1 t2).2.
Proof.
  intros Hinfo Ht Ha Htype.
  assert (process_message clients websocket data t1 t2
          = (clients, [ResponseUnbound websocket])) as ->.
  { apply process_transcription_other; unfold sender_role; by rewrite ?Hinfo. }
  split; [done|]. intros c message delivered. simpl.
  by intros ?%list_elem_of_singleton.
Qed.

(** *** Routing of a transcription *)

(** The events of a transcription are the translator calls, the fan-out
    and the acknowledgement: split a membership accordingly. *)
Ltac transcription_parts H :=
  rewrite !elem_of_app in H; destruct H as [H|[H|H]].

(** Point at the fan-out, or at the acknowledgement, of a transcription. *)
Ltac in_fan_out := rewrite !elem_of_app; right; left.
Ltac in_acknowledgement :=
  rewrite !elem_of_app; right; right; apply list_elem_of_singleton.

Lemma broadcast_sent_traveler clients websocket data t1 t2 c delivered :
  data !! "type" = Some (PyStr "transcription") →
  sender_role clients websocket = PyStr "traveler" →
  broadcast_sent (process_message clients websocket data t1 t2).2 c delivered
  ↔ delivered = negb (send_raises c)
    ∧ ∃ info, clients !! c = Some info ∧ role info = PyStr "assistant"
              ∧ session_id info = sender_session clients websocket.
Proof.
  intros Htype Hrole. rewrite process_transcription_traveler by done. simpl.
  unfold broadcast_sent. split.
  - intros (message & Hin & Hb).
    transcription_parts Hin.
    + by apply traveler_to_assistant_calls in Hin as [? ?].
    + apply elem_of_broadcast_to_assistants in Hin
        as (c' & info & [= -> -> ->] & Hc & Hr & Hs). eauto.
    + apply list_elem_of_singleton in Hin as [= -> -> ->].
      by apply transcription_sent_not_broadcast in Hb.
  - intros (-> & info & Hc & Hr & Hs). eexists. split.
    + in_fan_out. apply elem_of_broadcast_to_assistants. by exists c, info.
    + apply traveler_message_is_broadcast.
Qed.

Lemma broadcast_sent_assistant clients websocket data t1 t2 c delivered :
  data !! "type" = Some (PyStr "transcription") →
  sender_role clients websocket = PyStr "assistant" →
  broadcast_sent (process_message clients websocket data t1 t2).2 c delivered
  ↔ delivered = negb (send_raises c)
    ∧ ∃ info, clients !! c = Some info ∧ role info = PyStr "traveler"
              ∧ session_id info = sender_session clients websocket.
Proof.
  intros Htype Hrole. rewrite process_transcription_assistant by done. simpl.
  unfold broadcast_sent. split.
  - intros (message & Hin & Hb).
    transcription_parts Hin.
    + by apply assistant_to_traveler_calls in Hin as [? ?].
    + apply elem_of_broadcast_to_travelers in Hin
        as (c' & info & [= -> -> ->] & Hc & Hr & Hs). eauto.
    + apply list_elem_of_singleton in Hin as [= -> -> ->].
      by apply response_sent_not_broadcast in Hb.
  - intros (-> & info & Hc & Hr & Hs). eexists. split.
    + in_fan_out. apply elem_of_broadcast_to_travelers. by exists c, info.
    + apply assistant_response_is_broadcast.
Qed.

(** C3: when a transcription is processed, the connections a fan-out
    envelope is sent to are exactly the registered connections whose
    stored session id equals the session id resolved for the sender and
    whose stored role is the target role (assistant for a traveler
    sender, traveler for an assistant sender); each of them is sent to,
    and the envelope is delivered to exactly those among them whose send
    does not raise. *)
Theorem broadcast_recipients_exact clients websocket data t1 t2 target :
  data !! "type" = Some (PyStr "transcription") →
  target_role (sender_role clients websocket) = Some target →
  ∀ c,
    ((∃ delivered,
        broadcast_sent (process_message clients websocket data t1 t2).2 c delivered)
     ↔ ∃ info, clients !! c = Some info ∧ role info = target
               ∧ session_id info = sender_session clients websocket)
    ∧ (broadcast_sent (process_message clients websocket data t1 t2).2 c true
       ↔ send_raises c = false
         ∧ ∃ info, clients !! c = Some info ∧ role info = target
                   ∧ session_id info = sender_session clients websocket).
Proof.
  intros Htype Htarget c. unfold target_role in Htarget.
  repeat case_decide; simplify_eq.
  - split.
    + setoid_rewrite broadcast_sent_traveler; [|done..]. split.
      * by intros (? & _ & ?).
      * intros ?. eexists. by split.
    + rewrite broadcast_sent_traveler by done.
      destruct (send_raises c); simpl; split; intros [? ?]; by split.
  - split.
    + setoid_rewrite broadcast_sent_assistant; [|done..]. split.
      * by intros (? & _ & ?).
      * intros ?. eexists. by split.
    + rewrite broadcast_sent_assistant by done.
      destruct (send_raises c); simpl; split; intros [? ?]; by split.
Qed.

(** *** What a traveler's transcription carries *)

Lemma traveler_translation_text text lang :
  ∃ s, (translate_traveler_to_assistant text lang).1 = PyStr s
       ∧ (s = "" →
          ∃ model_key,
            Translate model_key text ∈ (translate_traveler_to_assistant text lang).2
            ∧ pipeline_call model_key text = Returns "").
Proof.
  unfold translate_traveler_to_assistant.
  destruct (negb _) eqn:Hsup; simpl.
  { eexists. split; [done|]. intros Hempty.
    by apply not_supported_offline_nonempty in Hempty. }
  case_decide as Hen.
  { subst lang. by rewrite english_is_not_supported in Hsup. }
  unfold translate_to_english. destruct (models_of lang) as [models|]; simpl.
  - destruct (pipeline_call _ _) as [s|e] eqn:Hcall.
    + exists s. split; [done|]. intros ->. exists (to_en models).
      split; [by left|done].
    + by eexists.
  - by eexists.
Qed.

(** C2, as the code has it: with a traveler and an assistant registered
    under the same session id, a transcription from the traveler sends
    the assistant a [traveler_message] envelope and sends the traveler a
    [transcription_sent] acknowledgement whose [translated_for_assistant]
    is the envelope's [translated].  That text is a string; it is empty
    only when the translation pipeline was called on the message's text
    and returned the empty text, which the server forwards as it is. *)
Theorem traveler_transcription_reaches_assistant
    clients traveler assistant tinfo ainfo data t1 t2 :
  clients !! traveler = Some tinfo → role tinfo = PyStr "traveler" →
  clients !! assistant = Some ainfo → role ainfo = PyStr "assistant" →
  session_id ainfo = session_id tinfo →
  data !! "type" = Some (PyStr "transcription") →
  ∃ message ack translated,
    Send assistant message (negb (send_raises assistant))
      ∈ (process_message clients traveler data t1 t2).2
    ∧ message !! "type" = Some (PyStr "traveler_message")
    ∧ message !! "translated" = Some (PyStr translated)
    ∧ Send traveler ack (negb (send_raises traveler))
        ∈ (process_message clients traveler data t1 t2).2
    ∧ ack !! "type" = Some (PyStr "transcription_sent")
    ∧ ack !! "translated_for_assistant" = Some (PyStr translated)
    ∧ (translated = "" →
       ∃ model_key,
         Translate model_key (get data "text" (PyStr ""))
           ∈ (process_message clients traveler data t1 t2).2
         ∧ pipeline_call model_key (get data "text" (PyStr "")) = Returns "").
Proof.
  intros Ht Hrt Ha Hra Hsid Htype.
  rewrite process_transcription_traveler
    by (unfold sender_role; by rewrite ?Ht).
  simpl.
  destruct (traveler_translation_text (get data "text" (PyStr ""))
              (sender_language clients traveler)) as (s & Hs & Hempty).
  rewrite Hs.
  eexists _, _, s. split_and!.
  - in_fan_out. apply elem_of_broadcast_to_assistants. exists assistant, ainfo.
    split_and!; [done..|]. unfold sender_session. by rewrite Ht.
  - done.
  - done.
  - by in_acknowledgement.
  - done.
  - done.
  - intros (model_key & Hcall & Hreturn)%Hempty. exists model_key.
    split; [|done]. rewrite !elem_of_app. by left.
Qed.

(** C7: the sends of a transcription are independent of each other.
    Whatever connections fail on send, every connection of the target
    role and of the sender's session whose own send does not raise is
    delivered the fan-out envelope, and the sender is delivered the
    acknowledgement whenever its own send does not raise. *)
Theorem send_failures_are_isolated clients websocket data t1 t2 target :
  data !! "type" = Some (PyStr "transcription") →
  target_role (sender_role clients websocket) = Some target →
  (∀ c info,
      clients !! c = Some info → role info = target →
      session_id info = sender_session clients websocket →
      send_raises c = false →
      broadcast_sent (process_message clients websocket data t1 t2).2 c true)
  ∧ (send_raises websocket = false →
     ∃ ack, Send websocket ack true ∈ (process_message clients websocket data t1 t2).2
            ∧ (ack !! "type" = Some (PyStr "transcription_sent")
               ∨ ack !! "type" = Some (PyStr "response_sent"))).
Proof.
  intros Htype Htarget. unfold target_role in Htarget.
  repeat case_decide; simplify_eq.
  - split.
    + intros c info Hc Hr Hs Hup. apply broadcast_sent_traveler; [done..|].
      rewrite Hup. split; [done|]. by exists info.
    + intros Hup. rewrite process_transcription_traveler by done. simpl.
      eexists. split.
      * in_acknowledgement. unfold send. by rewrite Hup.
      * by left.
  - split.
    + intros c info Hc Hr Hs Hup. apply broadcast_sent_assistant; [done..|].
      rewrite Hup. split; [done|]. by exists info.
    + intros Hup. rewrite process_transcription_assistant by done. simpl.
      eexists. split.
      * in_acknowledgement. unfold send. by rewrite Hup.
      * by right.
Qed.

(** *** Languages outside the supported list *)

Lemma traveler_to_assistant_unsupported text lang :
  py_in lang supported_languages = false →
  translate_traveler_to_assistant text lang = (PyStr (not_supported_offline lang), []).
Proof. unfold translate_traveler_to_assistant. by intros ->. Qed.

Lemma assistant_to_traveler_unsupported text lang :
  py_in lang supported_languages = false →
  translate_assistant_to_traveler text lang = (PyStr (not_supported_offline lang), []).
Proof. unfold translate_assistant_to_traveler. by intros ->. Qed.

Lemma fan_out_translator_idle wanted session (clients : gmap conn client_info) message rest :
  translator_idle rest →
  translator_idle
    (((λ entry : conn * client_info, send entry.1 message)
        <$> map_to_list (filter (in_session wanted session) clients)) ++ rest).
Proof.
  intros Hrest model_key text [Hin|Hin]%elem_of_app.
  - by apply elem_of_fan_out in Hin as (? & ? & ? & _).
  - by apply Hrest in Hin.
Qed.

Lemma send_translator_idle websocket message : translator_idle [send websocket message].
Proof. by intros model_key text ?%list_elem_of_singleton. Qed.

(** C1, at the code's behaviour: for the language "en" neither front end
    returns the text it was given.  "en" is not in [supported_languages],
    so the test for an unsupported language answers first and the
    [return text] behind it is never reached; the result is the "not
    supported" text. *)
Theorem english_gets_the_not_supported_text text :
  translate_traveler_to_assistant text (PyStr "en")
    = (PyStr "Language 'en' not supported offline. Supported: ['es', 'fr', 'de', 'it', 'pt']", [])
  ∧ translate_assistant_to_traveler text (PyStr "en")
    = (PyStr "Language 'en' not supported offline. Supported: ['es', 'fr', 'de', 'it', 'pt']", []).
Proof. split; reflexivity. Qed.

(** C4: when the relevant language of a transcription (the sender's
    stored language for a traveler, the message's [traveler_language]
    for an assistant) is not in [supported_languages], no translation
    pipeline is called, the translated value is the text that says "not
    supported" and lists the supported languages, and the fan-out and the
    acknowledgement are sent as usual with that text: every registered
    connection of the target role and of the sender's session is sent the
    envelope carrying it, the sender is sent the acknowledgement carrying
    it, and these are all the events. *)
Theorem unsupported_language_is_not_translated clients websocket data t1 t2 :
  data !! "type" = Some (PyStr "transcription") →
  let text := get data "text" (PyStr "") in
  let events := (process_message clients websocket data t1 t2).2 in
  (∀ lang, contains (not_supported_offline lang) "not supported"
           ∧ contains (not_supported_offline lang) "['es', 'fr', 'de', 'it', 'pt']")
  ∧ (sender_role clients websocket = PyStr "traveler" →
     py_in (sender_language clients websocket) supported_languages = false →
     let lang := sender_language clients websocket in
     let translated := PyStr (not_supported_offline lang) in
     translator_idle events
     ∧ events =
         broadcast_to_assistants clients (sender_session clients websocket)
           (traveler_message text translated lang t1)
         ++ [send websocket (transcription_sent text translated t2)]
     ∧ (∀ c info,
          clients !! c = Some info → role info = PyStr "assistant" →
          session_id info = sender_session clients websocket →
          Send c (traveler_message text translated lang t1) (negb (send_raises c))
            ∈ events)
     ∧ Send websocket (transcription_sent text translated t2)
         (negb (send_raises websocket)) ∈ events)
  ∧ (sender_role clients websocket = PyStr "assistant" →
     py_in (get data "traveler_language" (PyStr "es")) supported_languages = false →
     let lang := get data "traveler_language" (PyStr "es") in
     let translated := PyStr (not_supported_offline lang) in
     translator_idle events
     ∧ events =
         broadcast_to_travelers clients (sender_session clients websocket)
           (assistant_response text translated lang t1)
         ++ [send websocket (response_sent text translated t2)]
     ∧ (∀ c info,
          clients !! c = Some info → role info = PyStr "traveler" →
          session_id info = sender_session clients websocket →
          Send c (assistant_response text translated lang t1) (negb (send_raises c))
            ∈ events)
     ∧ Send websocket (response_sent text translated t2)
         (negb (send_raises websocket)) ∈ events).
Proof.
  intros Htype text events. subst events. split_and!.
  - intros lang. split.
    + apply not_supported_offline_says_so.
    + apply not_supported_offline_lists_languages.
  - intros Hrole Hlang lang translated.
    rewrite process_transcription_traveler by done. simpl.
    rewrite traveler_to_assistant_unsupported by done. simpl.
    split_and!.
    + apply fan_out_translator_idle, send_translator_idle.
    + done.
    + intros c info Hc Hr Hs. apply elem_of_app. left.
      apply elem_of_broadcast_to_assistants. by exists c, info.
    + apply elem_of_app. right. by apply list_elem_of_singleton.
  - intros Hrole Hlang lang translated.
    rewrite process_transcription_assistant by done. simpl.
    rewrite assistant_to_traveler_unsupported by done. simpl.
    split_and!.
    + apply fan_out_translator_idle, send_translator_idle.
    + done.
    + intros c info Hc Hr Hs. apply elem_of_app. left.
      apply elem_of_broadcast_to_travelers. by exists c, info.
    + apply elem_of_app. right. by apply list_elem_of_singleton.
Qed.

(** *** The assistant's stored language *)

Lemma broadcast_to_travelers_insert_assistant clients c info session message :
  role info = PyStr "assistant" →
  (∀ old, clients !! c = Some old → role old = PyStr "assistant") →
  broadcast_to_travelers (<[c := info]> clients) session message
  = broadcast_to_travelers clients session message.
Proof.
  intros Hr Hold. unfold broadcast_to_travelers.
  rewrite map_filter_insert_not'; [done|..].
  - unfold in_session. simpl. rewrite Hr. by intros [? _].
  - intros old Hc [Hro _]. simpl in Hro. by rewrite (Hold _ Hc) in Hro.
Qed.

(** C6: for a sender registered as assistant, the language of the
    translation and of the fan-out envelope is the message's
    [traveler_language] ("es" when the message has none); the sender's
    stored language plays no part: replacing it by any other value
    leaves every event of the transcription, fan-out and
    acknowledgement alike, the same. *)
Theorem assistant_stored_language_is_unused
    clients websocket info data t1 t2 other_language :
  clients !! websocket = Some info →
  role info = PyStr "assistant" →
  data !! "type" = Some (PyStr "transcription") →
  let text := get data "text" (PyStr "") in
  let lang := get data "traveler_language" (PyStr "es") in
  let tr := translate_assistant_to_traveler text lang in
  (process_message clients websocket data t1 t2).2
    = tr.2 ++ broadcast_to_travelers clients (session_id info)
                (assistant_response text tr.1 lang t1)
           ++ [send websocket (response_sent text tr.1 t2)]
  ∧ (process_message (<[websocket := set_language other_language info]> clients)
       websocket data t1 t2).2
    = (process_message clients websocket data t1 t2).2.
Proof.
  intros Hinfo Hrole Htype text lang tr.
  rewrite !process_transcription_assistant;
    [|done|unfold sender_role; rewrite ?lookup_insert_eq, ?Hinfo; done..].
  unfold sender_session. rewrite lookup_insert_eq, Hinfo. simpl.
  split; [done|].
  rewrite broadcast_to_travelers_insert_assistant; [done..|].
  intros old Hold. by simplify_eq.
Qed.

(** *** Connections that are not registered *)

Lemma process_message_quiet clients websocket data t1 t2 :
  data !! "type" ≠ Some (PyStr "transcription") →
  (process_message clients websocket data t1 t2).2 = [].
Proof. intros Htype. unfold process_message. by repeat case_decide. Qed.

Lemma process_message_lookup_other clients websocket data t1 t2 c :
  c ≠ websocket →
  (process_message clients websocket data t1 t2).1 !! c = clients !! c.
Proof.
  intros Hc. unfold process_message.
  repeat case_decide; repeat case_match; simpl; by rewrite ?lookup_alter_ne.
Qed.

Lemma process_message_sends_to clients websocket data t1 t2 c message delivered :
  Send c message delivered ∈ (process_message clients websocket data t1 t2).2 →
  c = websocket ∨ is_Some (clients !! c).
Proof.
  destruct (decide (data !! "type" = Some (PyStr "transcription"))) as [Htype|Htype];
    [|rewrite process_message_quiet by done; by intros ?%elem_of_nil].
  destruct (decide (sender_role clients websocket = PyStr "traveler")) as [Ht|Ht];
    [|destruct (decide (sender_role clients websocket = PyStr "assistant")) as [Ha|Ha]].
  - rewrite process_transcription_traveler by done. simpl.
    rewrite !elem_of_app. intros [Hin|[Hin|Hin]].
    + by apply traveler_to_assistant_calls in Hin as [? ?].
    + apply elem_of_broadcast_to_assistants in Hin as (? & ? & [= -> _ _] & Hc & _).
      right. by eexists.
    + apply list_elem_of_singleton in Hin as [= -> _ _]. by left.
  - rewrite process_transcription_assistant by done. simpl.
    rewrite !elem_of_app. intros [Hin|[Hin|Hin]].
    + by apply assistant_to_traveler_calls in Hin as [? ?].
    + apply elem_of_broadcast_to_travelers in Hin as (? & ? & [= -> _ _] & Hc & _).
      right. by eexists.
    + apply list_elem_of_singleton in Hin as [= -> _ _]. by left.
  - rewrite process_transcription_other by done. simpl.
    by intros ?%list_elem_of_singleton.
Qed.

Lemma step_lookup_other clients i c :
  input_conn i ≠ c → (step clients i).1 !! c = clients !! c.
Proof.
  destruct i as [websocket|websocket data t1 t2|websocket]; simpl; intros Hc.
  - unfold register_client. by rewrite lookup_insert_ne.
  - by apply process_message_lookup_other.
  - unfold unregister_client. destruct (clients !! websocket); [|done].
    by rewrite lookup_delete_ne.
Qed.

Lemma step_sends_to clients i c message delivered :
  Send c message delivered ∈ (step clients i).2 →
  c = input_conn i ∨ is_Some (clients !! c).
Proof.
  destruct i as [websocket|websocket data t1 t2|websocket]; simpl.
  - by intros ?%elem_of_nil.
  - apply process_message_sends_to.
  - by intros ?%elem_of_nil.
Qed.

Lemma run_without clients inputs c :
  Forall (λ i, input_conn i ≠ c) inputs →
  clients !! c = None →
  (run clients inputs).1 !! c = None
  ∧ ∀ message delivered, Send c message delivered ∉ (run clients inputs).2.
Proof.
  intros Hothers. revert clients.
  induction Hothers as [|i rest Hi _ IH]; intros clients Habsent; simpl.
  { split; [done|]. intros ? ?. apply not_elem_of_nil. }
  pose proof (step_lookup_other clients i c Hi) as Hstep.
  pose proof (step_sends_to clients i c) as Hsends.
  destruct (step clients i) as [clients1 events1]. simpl in *.
  rewrite Habsent in Hstep. destruct (IH clients1 Hstep) as [Hgone Hquiet].
  destruct (run clients1 rest) as [clients2 events2]. simpl in *.
  split; [done|]. intros message delivered [Hin|Hin]%elem_of_app.
  - apply Hsends in Hin as [->|[? ?]]; [done|congruence].
  - by apply Hquiet in Hin.
Qed.

(** C8: unregistering a connection that is not in the registry changes
    nothing.  Once a connection is unregistered it has no entry, the
    other entries are as before, neither fan-out sends to it, and as long
    as it does not connect again no later event of the server sends it
    anything; every one of these operations returns normally. *)
Theorem unregister_client_removes_for_good clients websocket :
  (clients !! websocket = None → unregister_client clients websocket = clients)
  ∧ unregister_client clients websocket !! websocket = None
  ∧ (∀ c, c ≠ websocket → unregister_client clients websocket !! c = clients !! c)
  ∧ (∀ session message envelope delivered,
       (Send websocket envelope delivered
          ∉ broadcast_to_assistants (unregister_client clients websocket) session message)
       ∧ (Send websocket envelope delivered
            ∉ broadcast_to_travelers (unregister_client clients websocket) session message))
  ∧ (∀ inputs,
       Forall (λ i, input_conn i ≠ websocket) inputs →
       (run (unregister_client clients websocket) inputs).1 !! websocket = None
       ∧ ∀ envelope delivered,
           Send websocket envelope delivered
             ∉ (run (unregister_client clients websocket) inputs).2).
Proof.
  assert (unregister_client clients websocket !! websocket = None) as Hgone.
  { unfold unregister_client. destruct (clients !! websocket) eqn:E; [|done].
    apply lookup_delete_eq. }
  split_and!.
  - unfold unregister_client. by intros ->.
  - done.
  - intros c Hc. unfold unregister_client.
    destruct (clients !! websocket); [|done]. by rewrite lookup_delete_ne.
  - intros session message envelope delivered. split.
    + intros (? & ? & [= <- _ _] & Hc & _)%elem_of_broadcast_to_assistants. congruence.
    + intros (? & ? & [= <- _ _] & Hc & _)%elem_of_broadcast_to_travelers. congruence.
  - intros inputs Hothers. by apply run_without.
Qed.

End Properties.

(** ** The statements on the scenarios *)

Lemma mock_pipeline_nonempty model_key t s :
  mock_pipeline_call model_key t = Returns s → s ≠ "".
Proof. by intros [= <-]. Qed.

(** A traveler whose language is "en" says "Hello" to the assistant of its
    session: both the envelope and the acknowledgement carry the "not
    supported" text instead of "Hello". *)
Example english_traveler_says_hello :
  (run mock_pipeline_call no_failures ∅
     [ Connect 1; Connect 2;
       Receive 1 (set_role_to "traveler" "S" "en") "" "";
       Receive 2 (set_role_to "assistant" "S" "en") "" "";
       Receive 1 {[ "type" := PyStr "transcription"; "text" := PyStr "Hello" ]}
               "10:00:00" "10:00:01" ]).2
  = let translated :=
      PyStr "Language 'en' not supported offline. Supported: ['es', 'fr', 'de', 'it', 'pt']" in
    [ Send 2 (traveler_message (PyStr "Hello") translated (PyStr "en") "10:00:00") true;
      Send 1 (transcription_sent (PyStr "Hello") translated "10:00:01") true ].
Proof. vm_compute. reflexivity. Qed.

(** The session id of a fresh entry is [None]: the statement of C5 with
    "default" fails on the empty registry and connection 1. *)
Lemma fresh_session_id_is_not_default :
  ¬ (∀ (clients : gmap conn client_info) websocket info,
       register_client clients websocket !! websocket = Some info →
       role info = PyStr "traveler" ∧ language info = PyStr "es"
       ∧ session_id info = PyStr "default").
Proof.
  intros Hclaim.
  destruct (Hclaim ∅ 1 fresh_entry) as (_ & _ & Hsession); [reflexivity|].
  discriminate Hsession.
Qed.

Lemma start_recording_only_language_witness :
  ∃ clients',
    process_message mock_pipeline_call no_failures two_party 1
      (start_recording_in "fr") "10:00:00" "10:00:01" = (clients', [])
    ∧ clients' !! 1 = Some (traveler_in "S" "fr")
    ∧ ∀ c, c ≠ 1 → clients' !! c = two_party !! c.
Proof.
  apply (start_recording_only_language mock_pipeline_call no_failures
           two_party 1 (traveler_in "S" "es") (start_recording_in "fr")).
  - reflexivity.
  - reflexivity.
Defined.

Lemma transcription_with_other_role_witness :
  process_message mock_pipeline_call no_failures with_observer 1 hola "10:00:00" "10:00:01"
    = (with_observer, [ResponseUnbound 1])
  ∧ ∀ c message delivered,
      Send c message delivered
        ∉ (process_message mock_pipeline_call no_failures with_observer 1 hola
             "10:00:00" "10:00:01").2.
Proof.
  apply (transcription_with_other_role mock_pipeline_call no_failures with_observer 1
           {| language := PyStr "es"; translation_enabled := true;
              role := PyStr "observer"; session_id := PyStr "S" |}).
  - reflexivity.
  - discriminate.
  - discriminate.
  - reflexivity.
Defined.

(** The registry of [with_observer] is what [set_role] produces from a
    client-supplied role. *)
Example observer_is_reachable :
  (run mock_pipeline_call no_failures ∅
     [Connect 1; Receive 1 (set_role_to "observer" "S" "es") "" ""]).1 = with_observer.
Proof. vm_compute. reflexivity. Qed.

Lemma traveler_transcription_reaches_assistant_witness :
  ∃ message ack translated,
    Send 2 message true
      ∈ (process_message mock_pipeline_call no_failures two_party 1 hola
           "10:00:00" "10:00:01").2
    ∧ message !! "type" = Some (PyStr "traveler_message")
    ∧ message !! "translated" = Some (PyStr translated)
    ∧ Send 1 ack true
        ∈ (process_message mock_pipeline_call no_failures two_party 1 hola
             "10:00:00" "10:00:01").2
    ∧ ack !! "type" = Some (PyStr "transcription_sent")
    ∧ ack !! "translated_for_assistant" = Some (PyStr translated)
    ∧ translated ≠ "".
Proof.
  destruct (traveler_transcription_reaches_assistant mock_pipeline_call no_failures
              two_party 1 2 (traveler_in "S" "es") (assistant_in "S") hola
              "10:00:00" "10:00:01" eq_refl eq_refl eq_refl eq_refl eq_refl eq_refl)
    as (message & ack & translated & H1 & H2 & H3 & H4 & H5 & H6 & Hempty).
  exists message, ack, translated.
  repeat (split; [assumption|]).
  intros Htranslated. destruct (Hempty Htranslated) as (model_key & _ & Hreturn).
  discriminate Hreturn.
Defined.

(** What the server sends when the pipeline returns the empty text for
    "Hola": the envelope and the acknowledgement both carry it. *)
Lemma empty_translation_events :
  (process_message empty_pipeline no_failures two_party 1 hola "10:00:00" "10:00:01").2
  = [ Translate "Helsinki-NLP/opus-mt-es-en" (PyStr "Hola");
      Send 2 (traveler_message (PyStr "Hola") (PyStr "") (PyStr "es") "10:00:00") true;
      Send 1 (transcription_sent (PyStr "Hola") (PyStr "") "10:00:01") true ].
Proof. vm_compute. reflexivity. Qed.

(** The statement of C2 with an unconditionally non-empty [translated]
    fails for traveler 1 and assistant 2 of session "S" when the pipeline
    returns the empty text: no [traveler_message] envelope sent to the
    assistant has a non-empty [translated]. *)
Lemma empty_translation_is_forwarded :
  ¬ ∃ message delivered translated,
      Send 2 message delivered
        ∈ (process_message empty_pipeline no_failures two_party 1 hola
             "10:00:00" "10:00:01").2
      ∧ message !! "type" = Some (PyStr "traveler_message")
      ∧ message !! "translated" = Some (PyStr translated)
      ∧ translated ≠ "".
Proof.
  intros (message & delivered & translated & Hin & _ & Htranslated & Hnonempty).
  rewrite empty_translation_events in Hin.
  repeat (apply elem_of_cons in Hin as [Hin|Hin]; [try discriminate Hin|]).
  - injection Hin as -> ->. vm_compute in Htranslated. congruence.
  - by apply elem_of_nil in Hin.
Qed.

(** Session ids are compared as they are: an assistant in session "s" is
    sent nothing when a traveler of session "S" speaks. *)
Example session_ids_are_case_sensitive :
  (process_message mock_pipeline_call no_failures
     (<[2 := assistant_in "s"]> two_party) 1 hola "10:00:00" "10:00:01").2
  = [ Translate "Helsinki-NLP/opus-mt-es-en" (PyStr "Hola");
      Send 1 (transcription_sent (PyStr "Hola") (PyStr "[MOCK TRANSLATION] Hola")
                "10:00:01") true ].
Proof. vm_compute. reflexivity. Qed.

Lemma broadcast_recipients_exact_witness :
  ((∃ delivered,
      broadcast_sent
        (process_message mock_pipeline_call no_failures two_party 1 hola
           "10:00:00" "10:00:01").2 2 delivered)
   ↔ ∃ info, two_party !! 2 = Some info ∧ role info = PyStr "assistant"
             ∧ session_id info = sender_session two_party 1)
  ∧ (broadcast_sent
       (process_message mock_pipeline_call no_failures two_party 1 hola
          "10:00:00" "10:00:01").2 2 true
     ↔ no_failures 2 = false
       ∧ ∃ info, two_party !! 2 = Some info ∧ role info = PyStr "assistant"
                 ∧ session_id info = sender_session two_party 1).
Proof.
  apply (broadcast_recipients_exact mock_pipeline_call no_failures two_party 1 hola
           "10:00:00" "10:00:01" (PyStr "assistant")).
  - reflexivity.
  - reflexivity.
Defined.

Lemma send_failures_are_isolated_witness :
  second_is_closed 2 = true
  ∧ broadcast_sent
      (process_message mock_pipeline_call second_is_closed three_party 1 hola
         "10:00:00" "10:00:01").2 3 true
  ∧ ∃ ack,
      Send 1 ack true
        ∈ (process_message mock_pipeline_call second_is_closed three_party 1 hola
             "10:00:00" "10:00:01").2
      ∧ (ack !! "type" = Some (PyStr "transcription_sent")
         ∨ ack !! "type" = Some (PyStr "response_sent")).
Proof.
  destruct (send_failures_are_isolated mock_pipeline_call second_is_closed
              three_party 1 hola "10:00:00" "10:00:01" (PyStr "assistant")
              eq_refl eq_refl) as [Hfan_out Hack].
  split; [reflexivity|]. split.
  - apply (Hfan_out 3 (assistant_in "S")); reflexivity.
  - apply Hack. reflexivity.
Defined.

Lemma unsupported_language_is_not_translated_witness :
  let events :=
    (process_message mock_pipeline_call no_failures two_party 2 (reply_in "xx")
       "10:00:00" "10:00:01").2 in
  let translated :=
    PyStr "Language 'xx' not supported offline. Supported: ['es', 'fr', 'de', 'it', 'pt']" in
  translator_idle events
  ∧ Send 1 (assistant_response (PyStr "Hello") translated (PyStr "xx") "10:00:00") true
      ∈ events
  ∧ Send 2 (response_sent (PyStr "Hello") translated "10:00:01") true ∈ events.
Proof.
  destruct (unsupported_language_is_not_translated mock_pipeline_call no_failures
              two_party 2 (reply_in "xx") "10:00:00" "10:00:01" eq_refl)
    as (_ & _ & Hassistant).
  destruct Hassistant as (Hidle & _ & Hfan_out & Hack); [reflexivity..|].
  split; [exact Hidle|]. split.
  - apply (Hfan_out 1 (traveler_in "S" "es")); reflexivity.
  - exact Hack.
Defined.

Lemma assistant_stored_language_is_unused_witness :
  (process_message mock_pipeline_call no_failures
     (<[2 := set_language (PyStr "de") (assistant_in "S")]> two_party) 2 (reply_in "fr")
     "10:00:00" "10:00:01").2
  = (process_message mock_pipeline_call no_failures two_party 2 (reply_in "fr")
       "10:00:00" "10:00:01").2.
Proof.
  apply (assistant_stored_language_is_unused mock_pipeline_call no_failures
           two_party 2 (assistant_in "S") (reply_in "fr") "10:00:00" "10:00:01"
           (PyStr "de")).
  - reflexivity.
  - reflexivity.
  - reflexivity.
Defined.

Lemma unregister_client_removes_for_good_witness :
  unregister_client two_party 5 = two_party
  ∧ (run mock_pipeline_call no_failures (unregister_client two_party 2)
       [Receive 1 hola "10:00:00" "10:00:01"]).1 !! 2 = None
  ∧ ∀ envelope delivered,
      Send 2 envelope delivered
        ∉ (run mock_pipeline_call no_failures (unregister_client two_party 2)
             [Receive 1 hola "10:00:00" "10:00:01"]).2.
Proof.
  split.
  - apply (unregister_client_removes_for_good mock_pipeline_call no_failures two_party 5).
    reflexivity.
  - apply (unregister_client_removes_for_good mock_pipeline_call no_failures two_party 2).
    repeat constructor; discriminate.
Defined.

(** ** Further properties of the registry and of the dispatcher *)

Section Dispatcher.

Variable pipeline_call : string → pyval → outcome.
Variable send_raises : conn → bool.

#[local] Abbreviation process_message := (process_message pipeline_call send_raises).
#[local] Abbreviation translate_traveler_to_assistant :=
  (translate_traveler_to_assistant pipeline_call).
#[local] Abbreviation translate_assistant_to_traveler :=
  (translate_assistant_to_traveler pipeline_call).
#[local] Abbreviation broadcast_to_assistants := (broadcast_to_assistants send_raises).
#[local] Abbreviation broadcast_to_travelers := (broadcast_to_travelers send_raises).
#[local] Abbreviation send := (send send_raises).
#[local] Abbreviation run := (run pipeline_call send_raises).
#[local] Abbreviation step := (step pipeline_call send_raises).
#[local] Abbreviation handle_messages := (handle_messages pipeline_call send_raises).
#[local] Abbreviation handle_client := (handle_client pipeline_call send_raises).

(** *** set_role and the other message types *)

Lemma process_set_role clients websocket data t1 t2 :
  data !! "type" = Some (PyStr "set_role") →
  process_message clients websocket data t1 t2 =
    (alter (λ info, {| language := get data "language" (PyStr "es");
                       translation_enabled := translation_enabled info;
                       role := get data "role" (PyStr "traveler");
                       session_id := get data "session_id" (PyStr "default") |})
       websocket clients, []).
Proof.
  unfold process_message. intros ->. simpl.
  repeat (case_decide; try done).
  destruct (clients !! websocket) eqn:E; [done|].
  f_equal. apply map_eq. intros c. rewrite lookup_alter.
  case_decide; simplify_eq; by rewrite ?E.
Qed.

(** X1: a [set_role] message from a registered sender overwrites role,
    session id and language of the sender's entry with the message's
    fields, a field the message lacks being reset to "traveler", "default"
    or "es" rather than kept; the translation flag and every other entry
    are kept, and nothing is sent. *)
Theorem set_role_overwrites_three_fields clients websocket info data t1 t2 :
  clients !! websocket = Some info →
  data !! "type" = Some (PyStr "set_role") →
  ∃ clients',
    process_message clients websocket data t1 t2 = (clients', [])
    ∧ clients' !! websocket =
        Some {| language := get data "language" (PyStr "es");
                translation_enabled := translation_enabled info;
                role := get data "role" (PyStr "traveler");
                session_id := get data "session_id" (PyStr "default") |}
    ∧ ∀ c, c ≠ websocket → clients' !! c = clients !! c.
Proof.
  intros Hinfo Htype. eexists. split; [by apply process_set_role|]. split.
  - by rewrite lookup_alter_eq, Hinfo.
  - intros c Hc. by rewrite lookup_alter_ne.
Qed.

Lemma process_message_registry clients websocket data t1 t2 :
  (process_message clients websocket data t1 t2).1 = clients
  ∨ ∃ f, (process_message clients websocket data t1 t2).1 = alter f websocket clients.
Proof.
  destruct (decide (data !! "type" = Some (PyStr "set_role"))) as [Hs|Hs].
  { right. rewrite process_set_role by done. by eexists. }
  destruct (decide (data !! "type" = Some (PyStr "start_recording"))) as [Hr|Hr].
  { right. rewrite process_start_recording by done. by eexists. }
  left. unfold process_message.
  repeat case_decide; try done; by repeat case_match.
Qed.

Lemma process_message_dom clients websocket data t1 t2 :
  dom (process_message clients websocket data t1 t2).1 = dom clients.
Proof.
  destruct (process_message_registry clients websocket data t1 t2) as [->|[f ->]];
    [done|]. apply dom_alter_L.
Qed.

(** X2: processing a message never registers and never unregisters a
    connection, whatever the message and whoever sends it: the registered
    connections are the same before and after.  In particular [set_role]
    and [start_recording] from a connection without an entry create
    none. *)
Theorem process_message_keeps_registered clients websocket data t1 t2 :
  dom (process_message clients websocket data t1 t2).1 = dom clients.
Proof. apply process_message_dom. Qed.

(** X3: only [set_role] and [start_recording] write to the registry and
    only [transcription] produces events; a message of any other type
    ([stop_recording], an unknown type, no type at all) changes nothing
    and sends nothing. *)
Theorem other_message_types_are_ignored clients websocket data t1 t2 :
  (data !! "type" ≠ Some (PyStr "set_role") →
   data !! "type" ≠ Some (PyStr "start_recording") →
   (process_message clients websocket data t1 t2).1 = clients)
  ∧ (data !! "type" ≠ Some (PyStr "transcription") →
     (process_message clients websocket data t1 t2).2 = []).
Proof.
  split.
  - intros Hs Hr. unfold process_message.
    repeat case_decide; try done; by repeat case_match.
  - apply process_message_quiet.
Qed.

(** *** Entries and the registered set along a run *)

Lemma run_cons clients i rest :
  run clients (i :: rest) =
    ((run (step clients i).1 rest).1, (step clients i).2 ++ (run (step clients i).1 rest).2).
Proof.
  simpl. destruct (step clients i) as [clients1 events1]. simpl.
  by destruct (run clients1 rest).
Qed.

(** X4: the entry of a connection is changed by its own accept, close and
    messages only: over any sequence of connection events none of which
    is of connection [c], the entry of [c] (or its absence) stays as it
    was.  No message of another connection can change a connection's
    role, session or language. *)
Theorem entry_changes_only_by_own_inputs clients inputs c :
  Forall (λ i, input_conn i ≠ c) inputs →
  (run clients inputs).1 !! c = clients !! c.
Proof.
  intros Hothers. revert clients.
  induction Hothers as [|i rest Hi _ IH]; intros clients; [done|].
  rewrite run_cons. simpl. rewrite IH.
  by apply step_lookup_other.
Qed.

Lemma unregister_client_delete (clients : gmap conn client_info) websocket :
  unregister_client clients websocket = delete websocket clients.
Proof.
  unfold unregister_client. destruct (clients !! websocket) eqn:E; [done|].
  symmetry. by apply delete_id.
Qed.

(** X5: which connections are registered is decided by the accepts and
    closes alone: after any sequence of connection events the registered
    set is the initial one with every accepted connection added and every
    closed one removed, in order; messages play no part. *)
Theorem registered_set_follows_accepts_and_closes clients inputs :
  dom (run clients inputs).1 = foldl registered_after (dom clients) inputs.
Proof.
  revert clients. induction inputs as [|i rest IH]; intros clients; [done|].
  rewrite run_cons. simpl. rewrite IH. f_equal.
  destruct i as [websocket|websocket data t1 t2|websocket]; simpl.
  - unfold register_client. apply dom_insert_L.
  - apply process_message_dom.
  - rewrite unregister_client_delete. apply dom_delete_L.
Qed.

Lemma handle_messages_lookup_other clients websocket frames c :
  c ≠ websocket →
  (handle_messages clients websocket frames).1 !! c = clients !! c.
Proof.
  intros Hc. revert clients.
  induction frames as [|[[[data|] t1] t2] rest IH]; intros clients; simpl; [done| |done].
  pose proof (process_message_lookup_other pipeline_call send_raises
                clients websocket data t1 t2 c Hc) as Hstep.
  destruct (process_message clients websocket data t1 t2) as [clients1 events1].
  simpl in *. specialize (IH clients1).
  destruct (handle_messages clients1 websocket rest). simpl in *. congruence.
Qed.

(** X6: a connection served from accept to close leaves no entry behind,
    whatever frames it sent (undecodable ones included) and whether or
    not it was registered before; the entries of all other connections
    are exactly as they were before it was accepted. *)
Theorem handle_client_leaves_no_entry clients websocket frames :
  (handle_client clients websocket frames).1 = delete websocket clients.
Proof.
  unfold handle_client.
  pose proof (handle_messages_lookup_other
                (register_client clients websocket) websocket frames) as Hother.
  destruct (handle_messages _ _ _) as [clients1 events]. simpl in *.
  rewrite unregister_client_delete. apply map_eq. intros c.
  destruct (decide (c = websocket)) as [->|Hc].
  - by rewrite !lookup_delete_eq.
  - rewrite !lookup_delete_ne, Hother by done.
    unfold register_client. by rewrite lookup_insert_ne.
Qed.

(** *** How many envelopes a message sends to a connection *)

Lemma omap_recipient_fan_out message (l : list (conn * client_info)) :
  omap recipient ((λ entry : conn * client_info, send entry.1 message) <$> l) = l.*1.
Proof. induction l as [|entry l IH]; [done|]. csimpl. by rewrite IH. Qed.

Lemma omap_recipient_calls text (l : list event) :
  (∀ e, e ∈ l → ∃ model_key, e = Translate model_key text) →
  omap recipient l = [].
Proof.
  induction l as [|e l IH]; intros Hcalls; [done|].
  destruct (Hcalls e) as [model_key ->]; [by left|]. simpl.
  apply IH. intros e' He'. apply Hcalls. by right.
Qed.

Lemma sender_not_in_fan_out wanted session (clients : gmap conn client_info) websocket :
  sender_role clients websocket ≠ wanted →
  websocket ∉ (map_to_list (filter (in_session wanted session) clients)).*1.
Proof.
  intros Hrole ([c info] & -> & Hin)%list_elem_of_fmap.
  apply elem_of_map_to_list, map_lookup_filter_Some in Hin as [Hc [Hr _]].
  simpl in *. unfold sender_role in Hrole. by rewrite Hc in Hrole.
Qed.

Lemma transcription_recipients_nodup wanted session clients websocket text calls
    message ack :
  (∀ e, e ∈ calls → ∃ model_key, e = Translate model_key text) →
  sender_role clients websocket ≠ wanted →
  NoDup (omap recipient
           (calls ++ ((λ entry : conn * client_info, send entry.1 message)
                        <$> map_to_list (filter (in_session wanted session) clients))
                  ++ [send websocket ack])).
Proof.
  intros Hcalls Hrole.
  rewrite !omap_app, (omap_recipient_calls text), omap_recipient_fan_out by done.
  simpl. apply NoDup_app. split_and!.
  - apply NoDup_fst_map_to_list.
  - intros c Hc ->%list_elem_of_singleton.
    by apply sender_not_in_fan_out in Hc.
  - apply NoDup_singleton.
Qed.

(** X7: one message sends at most one envelope to any connection: the
    connections sent to while a message is processed are pairwise
    distinct.  In particular the sender, who is sent the acknowledgement
    of a transcription, is never sent the fan-out envelope of its own
    transcription. *)
Theorem one_envelope_per_connection clients websocket data t1 t2 :
  NoDup (omap recipient (process_message clients websocket data t1 t2).2)
  ∧ ∀ delivered,
      ¬ broadcast_sent (process_message clients websocket data t1 t2).2 websocket delivered.
Proof.
  destruct (decide (data !! "type" = Some (PyStr "transcription"))) as [Htype|Htype].
  2:{ rewrite process_message_quiet by done. split; [constructor|].
      by intros delivered (message & Hin%elem_of_nil & _). }
  destruct (decide (sender_role clients websocket = PyStr "traveler")) as [Ht|Ht];
    [|destruct (decide (sender_role clients websocket = PyStr "assistant")) as [Ha|Ha]].
  - split.
    + rewrite process_transcription_traveler by done. simpl.
      eapply transcription_recipients_nodup.
      * intros e. apply traveler_to_assistant_calls.
      * by rewrite Ht.
    + intros delivered (_ & info & Hc & Hr & _)%broadcast_sent_traveler; [|done..].
      unfold sender_role in Ht. rewrite Hc in Ht. simpl in Ht. congruence.
  - split.
    + rewrite process_transcription_assistant by done. simpl.
      eapply transcription_recipients_nodup.
      * intros e. apply assistant_to_traveler_calls.
      * by rewrite Ha.
    + intros delivered (_ & info & Hc & Hr & _)%broadcast_sent_assistant; [|done..].
      unfold sender_role in Ha. rewrite Hc in Ha. simpl in Ha. congruence.
  - rewrite process_transcription_other by done. simpl. split; [constructor|].
    intros delivered (message & Hin & _).
    by apply list_elem_of_singleton in Hin.
Qed.

(** *** Supported and unsupported languages at the translator *)

Lemma supported_language_models lang :
  lang ∈ supported_languages →
  models_of (PyStr lang)
    = Some (ModelPair ("Helsinki-NLP/opus-mt-" +:+ lang +:+ "-en")
                      ("Helsinki-NLP/opus-mt-en-" +:+ lang))
  ∧ py_in (PyStr lang) supported_languages = true
  ∧ lang ≠ "en".
Proof.
  intros Hin. split_and!.
  - unfold supported_languages in Hin. simpl in Hin.
    repeat (apply elem_of_cons in Hin as [->|Hin]; [reflexivity|]).
    by apply elem_of_nil in Hin.
  - by apply bool_decide_eq_true.
  - intros ->. by apply (bool_decide_eq_true_2 _) in Hin.
Qed.

Lemma assoc_missing key table :
  key ∉ table.*1 → assoc key table = None.
Proof.
  induction table as [|[k v] table IH]; [done|]. csimpl.
  intros Hkey. apply not_elem_of_cons in Hkey as [Hne Hrest].
  case_decide; [congruence|]. by apply IH.
Qed.

Lemma unsupported_language_models lang :
  py_in lang supported_languages = false → models_of lang = None.
Proof.
  destruct lang as [|s]; [done|]. unfold py_in, models_of.
  intros Hin%bool_decide_eq_false. by apply assoc_missing.
Qed.

Lemma traveler_to_assistant_supported text lang :
  lang ∈ supported_languages →
  translate_traveler_to_assistant text (PyStr lang)
    = (rendered (pipeline_call ("Helsinki-NLP/opus-mt-" +:+ lang +:+ "-en") text),
       [Translate ("Helsinki-NLP/opus-mt-" +:+ lang +:+ "-en") text]).
Proof.
  intros (Hmodels & Hin & Hen)%supported_language_models.
  unfold translate_traveler_to_assistant. rewrite Hin. simpl.
  case_decide; [congruence|].
  unfold translate_to_english. by rewrite Hmodels.
Qed.

Lemma assistant_to_traveler_supported text lang :
  lang ∈ supported_languages →
  translate_assistant_to_traveler text (PyStr lang)
    = (rendered (pipeline_call ("Helsinki-NLP/opus-mt-en-" +:+ lang) text),
       [Translate ("Helsinki-NLP/opus-mt-en-" +:+ lang) text]).
Proof.
  intros (Hmodels & Hin & Hen)%supported_language_models.
  unfold translate_assistant_to_traveler. rewrite Hin. simpl.
  case_decide; [congruence|].
  unfold translate_from_english. by rewrite Hmodels.
Qed.

(** X8: for each of the supported languages a front end makes exactly
    one pipeline call, on the model of its own direction
    ("Helsinki-NLP/opus-mt-<lang>-en" towards the assistant,
    "Helsinki-NLP/opus-mt-en-<lang>" towards the traveler) and on the text
    as received; what it returns is the pipeline's text unchanged, or
    "Translation error: " followed by the message of the exception the
    pipeline raised. *)
Theorem supported_language_calls_its_model text lang :
  lang ∈ supported_languages →
  translate_traveler_to_assistant text (PyStr lang)
    = (rendered (pipeline_call ("Helsinki-NLP/opus-mt-" +:+ lang +:+ "-en") text),
       [Translate ("Helsinki-NLP/opus-mt-" +:+ lang +:+ "-en") text])
  ∧ translate_assistant_to_traveler text (PyStr lang)
    = (rendered (pipeline_call ("Helsinki-NLP/opus-mt-en-" +:+ lang) text),
       [Translate ("Helsinki-NLP/opus-mt-en-" +:+ lang) text]).
Proof.
  intros Hin. split.
  - by apply traveler_to_assistant_supported.
  - by apply assistant_to_traveler_supported.
Qed.

(** X9: called with a language that is not a key of the translation
    table ("en" and [None] included), [translate_to_english] and
    [translate_from_english] call no pipeline and return
    "Translation error: Language '<lang>' not supported". *)
Theorem offline_translator_rejects_unknown_language text lang :
  py_in lang supported_languages = false →
  translate_to_english pipeline_call text lang
    = (PyStr ("Translation error: Language '" +:+ py_str lang +:+ "' not supported"), [])
  ∧ translate_from_english pipeline_call text lang
    = (PyStr ("Translation error: Language '" +:+ py_str lang +:+ "' not supported"), []).
Proof.
  intros Hmodels%unsupported_language_models.
  unfold translate_to_english, translate_from_english. by rewrite Hmodels.
Qed.

(** X10: a pipeline that raises does not stop the message.  When the
    sender is a registered traveler with a supported language and the
    pipeline raises [e], the registry is unchanged and the events are the
    one pipeline call, the fan-out to the assistants of the sender's
    session and the acknowledgement, both carrying "Translation error: "
    followed by [e] as the translation. *)
Theorem translation_failure_is_still_routed clients websocket info lang data t1 t2 e :
  clients !! websocket = Some info →
  role info = PyStr "traveler" →
  language info = PyStr lang →
  lang ∈ supported_languages →
  data !! "type" = Some (PyStr "transcription") →
  pipeline_call ("Helsinki-NLP/opus-mt-" +:+ lang +:+ "-en") (get data "text" (PyStr ""))
    = Raises e →
  process_message clients websocket data t1 t2 =
    let text := get data "text" (PyStr "") in
    let translated := PyStr ("Translation error: " +:+ e) in
    (clients,
     [Translate ("Helsinki-NLP/opus-mt-" +:+ lang +:+ "-en") text]
     ++ broadcast_to_assistants clients (session_id info)
          (traveler_message text translated (PyStr lang) t1)
     ++ [send websocket (transcription_sent text translated t2)]).
Proof.
  intros Hinfo Hrole Hlang Hin Htype Hraise.
  rewrite process_transcription_traveler
    by (unfold sender_role; by rewrite ?Hinfo).
  unfold sender_language, sender_session. rewrite Hinfo. cbn [from_option].
  rewrite Hlang, traveler_to_assistant_supported by done.
  cbn zeta. by rewrite Hraise.
Qed.

(** X11: a transcription from a connection that has no registry entry is
    handled as a traveler speaking Spanish in session "default": one call
    of the Spanish-to-English model, a fan-out to the assistants whose
    session id is "default", and an acknowledgement to the sender; the
    sender is not registered by it. *)
Theorem unregistered_sender_uses_defaults clients websocket data t1 t2 :
  clients !! websocket = None →
  data !! "type" = Some (PyStr "transcription") →
  process_message clients websocket data t1 t2 =
    let text := get data "text" (PyStr "") in
    let translated := rendered (pipeline_call "Helsinki-NLP/opus-mt-es-en" text) in
    (clients,
     [Translate "Helsinki-NLP/opus-mt-es-en" text]
     ++ broadcast_to_assistants clients (PyStr "default")
          (traveler_message text translated (PyStr "es") t1)
     ++ [send websocket (transcription_sent text translated t2)]).
Proof.
  intros Hnone Htype.
  rewrite process_transcription_traveler
    by (unfold sender_role; by rewrite ?Hnone).
  unfold sender_language, sender_session. rewrite Hnone. cbn [from_option].
  by rewrite (traveler_to_assistant_supported _ "es") by (by apply (bool_decide_eq_true_1 _)).
Qed.

(** X12: a transcription sent right after registration, before any
    [set_role], is routed with session id [None]: its fan-out goes to
    assistants whose stored session id is [None] and to no connection
    whose session id is a string, "default" included. *)
Theorem fresh_connection_is_routed_with_none clients websocket data t1 t2 :
  data !! "type" = Some (PyStr "transcription") →
  let clients' := register_client clients websocket in
  let events := (process_message clients' websocket data t1 t2).2 in
  (∀ c delivered,
     broadcast_sent events c delivered →
     ∃ info, clients' !! c = Some info ∧ role info = PyStr "assistant"
             ∧ session_id info = PyNone)
  ∧ (∀ c info s delivered,
       clients' !! c = Some info → session_id info = PyStr s →
       ¬ broadcast_sent events c delivered).
Proof.
  intros Htype clients' events.
  assert (sender_role clients' websocket = PyStr "traveler") as Hrole.
  { unfold sender_role, clients', register_client. by rewrite lookup_insert_eq. }
  assert (sender_session clients' websocket = PyNone) as Hsession.
  { unfold sender_session, clients', register_client. by rewrite lookup_insert_eq. }
  assert (∀ c delivered,
            broadcast_sent events c delivered →
            ∃ info, clients' !! c = Some info ∧ role info = PyStr "assistant"
                    ∧ session_id info = PyNone) as Hfan_out.
  { intros c delivered (_ & info & Hc & Hr & Hs)%broadcast_sent_traveler; [|done..].
    exists info. by rewrite <- Hsession. }
  split; [done|].
  intros c info s delivered Hc Hs (info' & Hc' & _ & Hs')%Hfan_out. congruence.
Qed.

End Dispatcher.

(** ** Send failures and the course of a message *)

Lemma with_outcomes_calls send_raises text (l : list event) :
  (∀ e, e ∈ l → ∃ model_key, e = Translate model_key text) →
  with_outcomes send_raises <$> l = l.
Proof.
  induction l as [|e l IH]; intros Hcalls; [done|].
  destruct (Hcalls e) as [model_key ->]; [by left|]. csimpl.
  rewrite IH; [done|]. intros e' He'. apply Hcalls. by right.
Qed.

Lemma with_outcomes_fan_out send_raises message (l : list (conn * client_info)) :
  with_outcomes send_raises <$> ((λ entry : conn * client_info,
                                   send no_failures entry.1 message) <$> l)
  = (λ entry : conn * client_info, send send_raises entry.1 message) <$> l.
Proof. induction l as [|entry l IH]; [done|]. csimpl. by rewrite IH. Qed.

(** X19: whether sends fail has no influence on what a message does
    beyond the outcome of each send itself: for every failure pattern the
    registry after the message, the pipeline calls, the connections sent
    to, the envelopes and their order are those of the run in which no
    send fails; only the delivered flag of a send to a failing connection
    differs. *)
Theorem send_failures_do_not_steer pipeline_call send_raises clients websocket data t1 t2 :
  process_message pipeline_call send_raises clients websocket data t1 t2
  = ((process_message pipeline_call no_failures clients websocket data t1 t2).1,
     with_outcomes send_raises
       <$> (process_message pipeline_call no_failures clients websocket data t1 t2).2).
Proof.
  destruct (decide (data !! "type" = Some (PyStr "transcription"))) as [Htype|Htype].
  2:{ unfold process_message. by repeat case_decide. }
  destruct (decide (sender_role clients websocket = PyStr "traveler")) as [Ht|Ht];
    [|destruct (decide (sender_role clients websocket = PyStr "assistant")) as [Ha|Ha]].
  - rewrite !process_transcription_traveler by done. cbn zeta. cbn [fst snd].
    f_equal. rewrite !fmap_app. f_equal; [|f_equal].
    + symmetry. eapply with_outcomes_calls. intros e. apply traveler_to_assistant_calls.
    + symmetry. apply with_outcomes_fan_out.
  - rewrite !process_transcription_assistant by done. cbn zeta. cbn [fst snd].
    f_equal. rewrite !fmap_app. f_equal; [|f_equal].
    + symmetry. eapply with_outcomes_calls. intros e. apply assistant_to_traveler_calls.
    + symmetry. apply with_outcomes_fan_out.
  - by rewrite !process_transcription_other.
Qed.

(** ** The translator's cache *)

Section TranslatorCache.

#[local] Abbreviation ml_env := OfflineTranslator.ml_env.
#[local] Abbreviation translator := OfflineTranslator.translator.
#[local] Abbreviation load_model := OfflineTranslator.load_model.
#[local] Abbreviation pipeline_of := OfflineTranslator.pipeline_of.
#[local] Abbreviation serve := OfflineTranslator.serve.
#[local] Abbreviation ToEnglish := OfflineTranslator.ToEnglish.
#[local] Abbreviation FromEnglish := OfflineTranslator.FromEnglish.

Implicit Types (env : ml_env) (translators : gmap string translator).

(** X13: [load_model] loads a key at most once.  After a call the cache
    holds the translator it returned under the key and is unchanged on
    every other key, and any later call for the key returns that same
    translator without loading, whatever the environment has become: a
    key that fell back to the mock stays mocked even when its model can
    be loaded later, and a loaded pipeline stays in use when its files
    disappear. *)
Theorem load_model_loads_once env env' translators model_key :
  let loaded := load_model env translators model_key in
  loaded.2 !! model_key = Some loaded.1
  ∧ (∀ other, other ≠ model_key → loaded.2 !! other = translators !! other)
  ∧ load_model env' loaded.2 model_key = loaded.
Proof.
  unfold OfflineTranslator.load_model.
  destruct (translators !! model_key) as [t|] eqn:E; simpl.
  - rewrite E. by split_and!.
  - rewrite lookup_insert_eq. split_and!; [done| |done].
    intros other Hother. by rewrite lookup_insert_ne.
Qed.

Lemma pipeline_of_after_load env translators model_key other text :
  pipeline_of env (load_model env translators model_key).2 other text
  = pipeline_of env translators other text.
Proof.
  unfold OfflineTranslator.pipeline_of, OfflineTranslator.load_model.
  destruct (translators !! model_key) as [t|] eqn:E; simpl; [done|].
  destruct (decide (other = model_key)) as [->|Hother].
  - by rewrite lookup_insert_eq, E.
  - rewrite lookup_insert_ne by congruence. by destruct (translators !! other).
Qed.

Lemma translate_to_english_cached env translators text lang :
  ∃ translators',
    OfflineTranslator.translate_to_english env translators text lang
      = ((translate_to_english (pipeline_of env translators) text lang).1,
         translators',
         (translate_to_english (pipeline_of env translators) text lang).2)
    ∧ ∀ model_key t,
        pipeline_of env translators' model_key t = pipeline_of env translators model_key t.
Proof.
  unfold OfflineTranslator.translate_to_english, translate_to_english.
  destruct (models_of lang) as [models|]; [|by eexists].
  exists (load_model env translators (to_en models)).2. split.
  - unfold OfflineTranslator.pipeline_of.
    by destruct (load_model env translators (to_en models)).
  - intros model_key t. apply pipeline_of_after_load.
Qed.

Lemma translate_from_english_cached env translators text lang :
  ∃ translators',
    OfflineTranslator.translate_from_english env translators text lang
      = ((translate_from_english (pipeline_of env translators) text lang).1,
         translators',
         (translate_from_english (pipeline_of env translators) text lang).2)
    ∧ ∀ model_key t,
        pipeline_of env translators' model_key t = pipeline_of env translators model_key t.
Proof.
  unfold OfflineTranslator.translate_from_english, translate_from_english.
  destruct (models_of lang) as [models|]; [|by eexists].
  exists (load_model env translators (from_en models)).2. split.
  - unfold OfflineTranslator.pipeline_of.
    by destruct (load_model env translators (from_en models)).
  - intros model_key t. apply pipeline_of_after_load.
Qed.

Lemma answer_ext (f g : string → pyval → outcome) r :
  (∀ model_key t, f model_key t = g model_key t) → answer f r = answer g r.
Proof.
  intros Hfg. destruct r as [text lang|text lang]; simpl.
  - unfold translate_to_english. destruct (models_of lang); simpl; [|done].
    by rewrite Hfg.
  - unfold translate_from_english. destruct (models_of lang); simpl; [|done].
    by rewrite Hfg.
Qed.

(** X14: in an environment that does not change, the cache cannot be
    observed: the answers a translator object gives to any sequence of
    requests, starting from any cache, are those of the translation
    functions run on one fixed function from model key and text to
    outcome, the one the cache and the environment determine at the
    start. *)
Theorem cache_is_transparent env translators requests :
  (serve env translators requests).1
  = answer (pipeline_of env translators) <$> requests.
Proof.
  revert translators. induction requests as [|r rest IH]; intros translators; [done|].
  simpl.
  assert (∃ translators',
            match r with
            | ToEnglish text lang =>
                OfflineTranslator.translate_to_english env translators text lang
            | FromEnglish text lang =>
                OfflineTranslator.translate_from_english env translators text lang
            end
            = (answer (pipeline_of env translators) r, translators',
               match r with
               | ToEnglish text lang =>
                   (translate_to_english (pipeline_of env translators) text lang).2
               | FromEnglish text lang =>
                   (translate_from_english (pipeline_of env translators) text lang).2
               end)
            ∧ ∀ model_key t,
                pipeline_of env translators' model_key t
                = pipeline_of env translators model_key t)
    as (translators' & -> & Hsame).
  { destruct r as [text lang|text lang].
    - apply translate_to_english_cached.
    - apply translate_from_english_cached. }
  specialize (IH translators').
  destruct (serve env translators' rest) as [answers translators2]. simpl in *.
  rewrite IH. f_equal. apply list_fmap_ext. intros _ r' _. by apply answer_ext.
Qed.

Lemma load_unloadable env translators model_key :
  translators !! model_key = None →
  unloadable env model_key →
  ∃ t, load_model env translators model_key = (t, <[model_key := t]> translators)
       ∧ ∀ env' text, OfflineTranslator.call env' t text = mock_pipeline_call "" text.
Proof.
  intros Hmiss Hun. unfold OfflineTranslator.load_model. rewrite Hmiss.
  destruct (OfflineTranslator.ml_available env) eqn:Hml.
  - destruct (OfflineTranslator.from_pretrained_ok env model_key
              && OfflineTranslator.pipeline_builds env model_key) eqn:Hload.
    + apply andb_true_iff in Hload as [Hfrom Hbuild].
      destruct Hun as [?|[?|?]]; congruence.
    + by eexists.
  - by eexists.
Qed.

(** X15: a model that cannot be loaded is answered by the mock, not by an
    error, and for good.  When the key of a supported language is not in
    the cache and loading it cannot give the real pipeline (no ML
    libraries, [from_pretrained] raising, or the pipeline not building),
    the translation is "[MOCK TRANSLATION] " followed by the text, and
    every later translation through that key is the mock's as well, in
    whatever environment it is made. *)
Theorem unloadable_model_is_mocked env env' translators text text' lang :
  lang ∈ supported_languages →
  (translators !! ("Helsinki-NLP/opus-mt-" +:+ lang +:+ "-en") = None →
   unloadable env ("Helsinki-NLP/opus-mt-" +:+ lang +:+ "-en") →
   ∃ translators',
     OfflineTranslator.translate_to_english env translators text (PyStr lang)
       = (PyStr ("[MOCK TRANSLATION] " +:+ py_str text), translators',
          [Translate ("Helsinki-NLP/opus-mt-" +:+ lang +:+ "-en") text])
     ∧ OfflineTranslator.translate_to_english env' translators' text' (PyStr lang)
       = (PyStr ("[MOCK TRANSLATION] " +:+ py_str text'), translators',
          [Translate ("Helsinki-NLP/opus-mt-" +:+ lang +:+ "-en") text']))
  ∧ (translators !! ("Helsinki-NLP/opus-mt-en-" +:+ lang) = None →
     unloadable env ("Helsinki-NLP/opus-mt-en-" +:+ lang) →
     ∃ translators',
       OfflineTranslator.translate_from_english env translators text (PyStr lang)
         = (PyStr ("[MOCK TRANSLATION] " +:+ py_str text), translators',
            [Translate ("Helsinki-NLP/opus-mt-en-" +:+ lang) text])
       ∧ OfflineTranslator.translate_from_english env' translators' text' (PyStr lang)
         = (PyStr ("[MOCK TRANSLATION] " +:+ py_str text'), translators',
            [Translate ("Helsinki-NLP/opus-mt-en-" +:+ lang) text'])).
Proof.
  intros (Hmodels & _ & _)%supported_language_models.
  split; intros Hmiss Hun;
    destruct (load_unloadable env translators _ Hmiss Hun) as (t & Hload & Hcall);
    eexists;
    unfold OfflineTranslator.translate_to_english,
      OfflineTranslator.translate_from_english;
    rewrite Hmodels; simpl; rewrite Hload; (split; [by rewrite Hcall|]);
    unfold OfflineTranslator.load_model; rewrite lookup_insert_eq;
    by rewrite Hcall.
Qed.

End TranslatorCache.

(** ** The download script *)

Lemma each_model_all_loaded loads models :
  Forall (λ model_name, loads model_name = true) models →
  DownloadModels.each_model loads models = (true, DownloadModels.Succeeded <$> models).
Proof.
  induction 1 as [|model_name rest Hok _ IH]; [done|].
  simpl. by rewrite Hok, IH.
Qed.

Lemma each_model_first_failure loads before model_name after :
  Forall (λ m, loads m = true) before →
  loads model_name = false →
  DownloadModels.each_model loads (before ++ model_name :: after)
  = (false, (DownloadModels.Succeeded <$> before) ++ [DownloadModels.Failed model_name]).
Proof.
  intros Hbefore Hfail. induction Hbefore as [|m rest Hok _ IH]; simpl.
  - by rewrite Hfail.
  - by rewrite Hok, IH.
Qed.

Lemma each_model_true loads models :
  (DownloadModels.each_model loads models).1 = true →
  Forall (λ model_name, loads model_name = true) models.
Proof.
  induction models as [|m rest IH]; [constructor|]. simpl.
  destruct (loads m) eqn:Hm; [|done].
  destruct (DownloadModels.each_model loads rest) as [result reports].
  simpl in *. intros ->. constructor; [done|]. by apply IH.
Qed.

(** X16: [download_models] stops at the first model that fails to
    download.  It returns [True], having downloaded all ten models in
    order, exactly when every download succeeds; otherwise it returns
    [False] right after the first failing model and attempts none of the
    models listed after it.  When the cache directory cannot be created
    it raises before any download. *)
Theorem download_models_stops_at_first_failure fetch_ok :
  DownloadModels.download_models false fetch_ok = None
  ∧ (Forall (λ m, fetch_ok m = true) DownloadModels.TRANSLATION_MODELS →
     DownloadModels.download_models true fetch_ok
     = Some (true, DownloadModels.Succeeded <$> DownloadModels.TRANSLATION_MODELS))
  ∧ (∀ before model_name after,
       DownloadModels.TRANSLATION_MODELS = before ++ model_name :: after →
       Forall (λ m, fetch_ok m = true) before →
       fetch_ok model_name = false →
       DownloadModels.download_models true fetch_ok
       = Some (false, (DownloadModels.Succeeded <$> before)
                        ++ [DownloadModels.Failed model_name]))
  ∧ (∀ reports,
       DownloadModels.download_models true fetch_ok = Some (true, reports) →
       Forall (λ m, fetch_ok m = true) DownloadModels.TRANSLATION_MODELS).
Proof.
  unfold DownloadModels.download_models. split_and!.
  - done.
  - intros Hall. by rewrite each_model_all_loaded.
  - intros before model_name after -> Hbefore Hfail.
    by rewrite each_model_first_failure.
  - intros reports Heq. apply each_model_true.
    apply (inj Some) in Heq. by rewrite Heq.
Qed.

Lemma server_models_are_listed lang :
  lang ∈ supported_languages →
  "Helsinki-NLP/opus-mt-" +:+ lang +:+ "-en" ∈ DownloadModels.TRANSLATION_MODELS
  ∧ "Helsinki-NLP/opus-mt-en-" +:+ lang ∈ DownloadModels.TRANSLATION_MODELS.
Proof.
  intros Hin. unfold supported_languages in Hin. simpl in Hin.
  repeat (apply elem_of_cons in Hin as [->|Hin];
          [split; by apply (bool_decide_eq_true_1 _)|]).
  by apply elem_of_nil in Hin.
Qed.

(** X17: when [verify_offline_models] returns [True] for the local
    cache, the server's translator, with the ML libraries present and
    the pipelines building, never falls back to the mock: for every
    supported language and both directions, a translation through a key
    not yet cached loads the real pipeline of that key, caches it, and
    returns what that pipeline returns (or "Translation error: " and its
    exception).  Every model the server can ask for is on the script's
    list. *)
Theorem verified_models_run_for_real env translators text lang :
  (DownloadModels.verify_offline_models (OfflineTranslator.from_pretrained_ok env)).1 = true →
  OfflineTranslator.ml_available env = true →
  (∀ model_key, OfflineTranslator.pipeline_builds env model_key = true) →
  lang ∈ supported_languages →
  (translators !! ("Helsinki-NLP/opus-mt-" +:+ lang +:+ "-en") = None →
   OfflineTranslator.translate_to_english env translators text (PyStr lang)
   = (rendered (OfflineTranslator.inference env
                  ("Helsinki-NLP/opus-mt-" +:+ lang +:+ "-en") text),
      <["Helsinki-NLP/opus-mt-" +:+ lang +:+ "-en"
          := OfflineTranslator.Pipeline ("Helsinki-NLP/opus-mt-" +:+ lang +:+ "-en")]>
        translators,
      [Translate ("Helsinki-NLP/opus-mt-" +:+ lang +:+ "-en") text]))
  ∧ (translators !! ("Helsinki-NLP/opus-mt-en-" +:+ lang) = None →
     OfflineTranslator.translate_from_english env translators text (PyStr lang)
     = (rendered (OfflineTranslator.inference env
                    ("Helsinki-NLP/opus-mt-en-" +:+ lang) text),
        <["Helsinki-NLP/opus-mt-en-" +:+ lang
            := OfflineTranslator.Pipeline ("Helsinki-NLP/opus-mt-en-" +:+ lang)]>
          translators,
        [Translate ("Helsinki-NLP/opus-mt-en-" +:+ lang) text])).
Proof.
  intros Hverified Hml Hbuild Hin.
  apply each_model_true in Hverified. rewrite Forall_forall in Hverified.
  destruct (server_models_are_listed lang Hin) as [Hto Hfrom].
  apply Hverified in Hto, Hfrom.
  apply supported_language_models in Hin as (Hmodels & _ & _).
  split; intros Hmiss;
    unfold OfflineTranslator.translate_to_english,
      OfflineTranslator.translate_from_english, OfflineTranslator.load_model;
    rewrite Hmodels; simpl; rewrite Hmiss, Hml, ?Hto, ?Hfrom, Hbuild; done.
Qed.

(** X18: the exit status of the download script.  With "verify" as its
    first argument the script exits with status 0 as soon as the cache
    size can be computed, whether or not the verification found every
    model.  Without "verify" or "size" it exits with status 0 exactly
    when the cache directory can be created, all ten downloads succeed,
    all ten models then verify, and the cache size can be computed. *)
Theorem download_script_exit_status argv makedirs_ok fetch_ok local_ok cache_size :
  (argv !! 1 = Some "verify" →
   (DownloadModels.main argv makedirs_ok fetch_ok local_ok cache_size).1
   = if cache_size is Some _ then 0 else 1)
  ∧ (argv !! 1 ≠ Some "verify" → argv !! 1 ≠ Some "size" →
     (DownloadModels.main argv makedirs_ok fetch_ok local_ok cache_size).1 = 0
     ↔ makedirs_ok = true
       ∧ Forall (λ m, fetch_ok m = true) DownloadModels.TRANSLATION_MODELS
       ∧ Forall (λ m, local_ok m = true) DownloadModels.TRANSLATION_MODELS
       ∧ is_Some cache_size).
Proof.
  unfold DownloadModels.main. split.
  - intros Hverify. by rewrite decide_True.
  - intros Hverify Hsize. rewrite !decide_False by done.
    unfold DownloadModels.download_models, DownloadModels.verify_offline_models.
    generalize DownloadModels.TRANSLATION_MODELS. intros models. split.
    + destruct makedirs_ok; [|done].
      pose proof (each_model_true fetch_ok models) as Hfetch.
      pose proof (each_model_true local_ok models) as Hlocal.
      destruct (DownloadModels.each_model fetch_ok models) as [[] downloads]; [|done].
      destruct (DownloadModels.each_model local_ok models) as [[] checks]; [|done].
      destruct cache_size; [|done]. intros _. split_and!; eauto.
    + intros (-> & Hfetch & Hlocal & [size ->]).
      by rewrite !each_model_all_loaded.
Qed.

(** ** The further statements on the scenarios *)

Lemma set_role_overwrites_three_fields_witness :
  ∃ clients',
    process_message mock_pipeline_call no_failures two_party 1 become_assistant
      "10:00:00" "10:00:01" = (clients', [])
    ∧ clients' !! 1 = Some (assistant_in "default")
    ∧ ∀ c, c ≠ 1 → clients' !! c = two_party !! c.
Proof.
  apply (set_role_overwrites_three_fields mock_pipeline_call no_failures two_party 1
           (traveler_in "S" "es") become_assistant).
  - reflexivity.
  - reflexivity.
Defined.

Lemma other_message_types_are_ignored_witness :
  process_message mock_pipeline_call no_failures two_party 1 stop_recording
    "10:00:00" "10:00:01" = (two_party, []).
Proof.
  destruct (other_message_types_are_ignored mock_pipeline_call no_failures two_party 1
              stop_recording "10:00:00" "10:00:01") as [Hregistry Hevents].
  rewrite (surjective_pairing (process_message _ _ _ _ _ _ _)).
  rewrite Hregistry, Hevents; [reflexivity|discriminate..].
Defined.

Lemma entry_changes_only_by_own_inputs_witness :
  (run mock_pipeline_call no_failures two_party
     [Receive 1 become_assistant "10:00:00" "10:00:01"; Disconnect 1]).1 !! 2
  = two_party !! 2.
Proof.
  apply (entry_changes_only_by_own_inputs mock_pipeline_call no_failures).
  repeat constructor; discriminate.
Defined.

Lemma supported_language_calls_its_model_witness :
  translate_traveler_to_assistant mock_pipeline_call (PyStr "Bonjour") (PyStr "fr")
    = (PyStr "[MOCK TRANSLATION] Bonjour",
       [Translate "Helsinki-NLP/opus-mt-fr-en" (PyStr "Bonjour")])
  ∧ translate_assistant_to_traveler mock_pipeline_call (PyStr "Bonjour") (PyStr "fr")
    = (PyStr "[MOCK TRANSLATION] Bonjour",
       [Translate "Helsinki-NLP/opus-mt-en-fr" (PyStr "Bonjour")]).
Proof.
  apply (supported_language_calls_its_model mock_pipeline_call (PyStr "Bonjour") "fr").
  by apply (bool_decide_eq_true_1 _).
Defined.

Lemma offline_translator_rejects_unknown_language_witness :
  translate_to_english mock_pipeline_call (PyStr "Hello") (PyStr "en")
    = (PyStr "Translation error: Language 'en' not supported", [])
  ∧ translate_from_english mock_pipeline_call (PyStr "Hello") (PyStr "en")
    = (PyStr "Translation error: Language 'en' not supported", []).
Proof.
  apply (offline_translator_rejects_unknown_language mock_pipeline_call
           (PyStr "Hello") (PyStr "en")).
  reflexivity.
Defined.

Lemma translation_failure_is_still_routed_witness :
  process_message failing_pipeline no_failures two_party 1 hola "10:00:00" "10:00:01"
  = (two_party,
     [ Translate "Helsinki-NLP/opus-mt-es-en" (PyStr "Hola");
       Send 2 (traveler_message (PyStr "Hola")
                 (PyStr "Translation error: out of memory") (PyStr "es") "10:00:00") true;
       Send 1 (transcription_sent (PyStr "Hola")
                 (PyStr "Translation error: out of memory") "10:00:01") true ]).
Proof.
  rewrite (translation_failure_is_still_routed failing_pipeline no_failures two_party 1
             (traveler_in "S" "es") "es" hola "10:00:00" "10:00:01" "out of memory").
  - vm_compute. reflexivity.
  - reflexivity.
  - reflexivity.
  - reflexivity.
  - by apply (bool_decide_eq_true_1 _).
  - reflexivity.
  - reflexivity.
Defined.

Lemma unregistered_sender_uses_defaults_witness :
  process_message mock_pipeline_call no_failures
    (<[2 := assistant_in "default"]> two_party) 7 hola "10:00:00" "10:00:01"
  = (<[2 := assistant_in "default"]> two_party,
     [ Translate "Helsinki-NLP/opus-mt-es-en" (PyStr "Hola");
       Send 2 (traveler_message (PyStr "Hola") (PyStr "[MOCK TRANSLATION] Hola")
                 (PyStr "es") "10:00:00") true;
       Send 7 (transcription_sent (PyStr "Hola") (PyStr "[MOCK TRANSLATION] Hola")
                 "10:00:01") true ]).
Proof.
  rewrite (unregistered_sender_uses_defaults mock_pipeline_call no_failures).
  - vm_compute. reflexivity.
  - reflexivity.
  - reflexivity.
Defined.

Lemma fresh_connection_is_routed_with_none_witness :
  ¬ broadcast_sent
      (process_message mock_pipeline_call no_failures
         (register_client (<[2 := assistant_in "default"]> two_party) 9) 9 hola
         "10:00:00" "10:00:01").2 2 true.
Proof.
  apply (fresh_connection_is_routed_with_none mock_pipeline_call no_failures
           (<[2 := assistant_in "default"]> two_party) 9 hola "10:00:00" "10:00:01"
           eq_refl)
    with (info := assistant_in "default") (s := "default").
  - reflexivity.
  - reflexivity.
Defined.

Lemma unloadable_model_is_mocked_witness :
  ∃ translators',
    OfflineTranslator.translate_to_english no_local_models ∅ (PyStr "Hola") (PyStr "es")
      = (PyStr "[MOCK TRANSLATION] Hola", translators',
         [Translate "Helsinki-NLP/opus-mt-es-en" (PyStr "Hola")])
    ∧ OfflineTranslator.translate_to_english all_local_models translators'
        (PyStr "Adios") (PyStr "es")
      = (PyStr "[MOCK TRANSLATION] Adios", translators',
         [Translate "Helsinki-NLP/opus-mt-es-en" (PyStr "Adios")]).
Proof.
  assert ("es" ∈ supported_languages) as Hes by (by apply (bool_decide_eq_true_1 _)).
  destruct (unloadable_model_is_mocked no_local_models all_local_models ∅
              (PyStr "Hola") (PyStr "Adios") "es" Hes) as [Hto _].
  apply Hto.
  - reflexivity.
  - right. left. reflexivity.
Defined.

Lemma download_models_stops_at_first_failure_witness :
  DownloadModels.download_models true all_but_french
  = Some (false, [ DownloadModels.Succeeded "Helsinki-NLP/opus-mt-es-en";
                   DownloadModels.Succeeded "Helsinki-NLP/opus-mt-en-es";
                   DownloadModels.Failed "Helsinki-NLP/opus-mt-fr-en" ]).
Proof.
  destruct (download_models_stops_at_first_failure all_but_french)
    as (_ & _ & Hfailure & _).
  apply (Hfailure [ "Helsinki-NLP/opus-mt-es-en"; "Helsinki-NLP/opus-mt-en-es" ]
           "Helsinki-NLP/opus-mt-fr-en"
           [ "Helsinki-NLP/opus-mt-en-fr";
             "Helsinki-NLP/opus-mt-de-en"; "Helsinki-NLP/opus-mt-en-de";
             "Helsinki-NLP/opus-mt-it-en"; "Helsinki-NLP/opus-mt-en-it";
             "Helsinki-NLP/opus-mt-pt-en"; "Helsinki-NLP/opus-mt-en-pt" ]).
  - reflexivity.
  - repeat constructor.
  - reflexivity.
Defined.

Lemma verified_models_run_for_real_witness :
  OfflineTranslator.translate_to_english all_local_models ∅ (PyStr "Hallo") (PyStr "de")
  = (PyStr "Helsinki-NLP/opus-mt-de-en",
     {[ "Helsinki-NLP/opus-mt-de-en"
          := OfflineTranslator.Pipeline "Helsinki-NLP/opus-mt-de-en" ]},
     [Translate "Helsinki-NLP/opus-mt-de-en" (PyStr "Hallo")]).
Proof.
  assert ("de" ∈ supported_languages) as Hde by (by apply (bool_decide_eq_true_1 _)).
  destruct (verified_models_run_for_real all_local_models ∅ (PyStr "Hallo") "de"
              eq_refl eq_refl (λ _, eq_refl) Hde) as [Hto _].
  apply Hto. reflexivity.
Defined.

Lemma download_script_exit_status_witness :
  (DownloadModels.main ["download_models.py"; "verify"] true (λ _, true) (λ _, false)
     (Some "0.00 KB")).1 = 0
  ∧ (DownloadModels.main ["download_models.py"] true (λ _, true) (λ _, true)
       (Some "2.81 GB")).1 = 0.
Proof.
  split.
  - destruct (download_script_exit_status ["download_models.py"; "verify"] true
                (λ _, true) (λ _, false) (Some "0.00 KB")) as [Hverify _].
    apply Hverify. reflexivity.
  - destruct (download_script_exit_status ["download_models.py"] true
                (λ _, true) (λ _, true) (Some "2.81 GB")) as [_ Hdownload].
    apply Hdownload; [discriminate|discriminate|].
    split_and!; [reflexivity|repeat constructor..|by eexists].
Defined.
